(** * create-tanstack-boilerplate: the scaffolder of [index.js]

    A shallow embedding of the command-line scaffolder: the feature catalog
    [FEATURES], the manifest composer [generatePackageJson], the file
    emitters ([createBaseStructure], [createI18nSetup], ...) and the driver
    [init], followed by the properties of the composition engine.

    Conventions of the embedding.
    - A JavaScript string is a [string] holding its UTF-8 bytes, which is
      what [fs.writeFileSync] stores; [===] on strings is [String.eqb].
    - A plain JavaScript object is an association list in property creation
      order, the order [JSON.stringify] and [Object.entries] follow for
      keys that are not array indices (no key of this program is one).
    - Code that can throw returns a [completion]; code that touches the
      file system runs in the monad [IO], which logs every [fs] call.
    - Console output is not modelled. *)

From Stdlib Require Import String Ascii List Bool Arith Lia Permutation Btauto.
Import ListNotations.

Set Warnings "-register-all".

Open Scope string_scope.
Open Scope list_scope.

Infix "+:+" := String.append (at level 60, right associativity).

(** ** Strings *)

Module Str.

(** The characters a Rocq literal cannot hold directly. *)
Definition dq : string := String "034"%char EmptyString.
Definition backslash : string := String "092"%char EmptyString.
Definition nl : string := String "010"%char EmptyString.

(** [Array.prototype.join]. *)
Fixpoint join (sep : string) (parts : list string) : string :=
  match parts with
  | [] => ""
  | [p] => p
  | p :: rest => p +:+ sep +:+ join sep rest
  end.

(** [xs.includes(x)] on an array of strings. *)
Definition includes (xs : list string) (x : string) : bool :=
  existsb (String.eqb x) xs.

(** [s.split("/")]: the components between the separators, empty ones
    included. *)
Fixpoint split_slash_aux (acc : string) (s : string) : list string :=
  match s with
  | EmptyString => [acc]
  | String c rest =>
      if Ascii.eqb c "/"%char then acc :: split_slash_aux "" rest
      else split_slash_aux (acc +:+ String c EmptyString) rest
  end.

Definition split_slash (s : string) : list string := split_slash_aux "" s.

(** [true] when no character of [s] is the path separator. *)
Fixpoint no_slash (s : string) : bool :=
  match s with
  | EmptyString => true
  | String c rest => negb (Ascii.eqb c "/"%char) && no_slash rest
  end.

End Str.

(** ** Plain objects *)

Module Obj.

Definition t (V : Type) : Type := list (string * V).

(** [o[k]] on own properties. *)
Fixpoint get {V : Type} (k : string) (o : t V) : option V :=
  match o with
  | [] => None
  | (k', v) :: rest => if String.eqb k k' then Some v else get k rest
  end.

(** [o[k] = v]: an existing property keeps its place, a new one goes last. *)
Fixpoint set {V : Type} (k : string) (v : V) (o : t V) : t V :=
  match o with
  | [] => [(k, v)]
  | (k', v') :: rest =>
      if String.eqb k k' then (k', v) :: rest else (k', v') :: set k v rest
  end.

Definition keys {V : Type} (o : t V) : list string := map fst o.

Definition has {V : Type} (k : string) (o : t V) : bool :=
  match get k o with Some _ => true | None => false end.

(** [ks.forEach((k) => { o[k] = v })]. *)
Definition set_all {V : Type} (ks : list string) (v : V) (o : t V) : t V :=
  fold_left (fun acc k => set k v acc) ks o.

End Obj.

(** ** JSON values and [JSON.stringify(value, null, 2)] *)

Module Json.

(** The values this program serialises: strings, booleans, arrays and
    objects (no number and no null occurs in any generated document). *)
Inductive value : Type :=
| JString (s : string)
| JBool (b : bool)
| JArray (items : list value)
| JObject (fields : list (string * value)).

Definition hex_digit (n : nat) : string :=
  match n with
  | 0 => "0" | 1 => "1" | 2 => "2" | 3 => "3" | 4 => "4" | 5 => "5"
  | 6 => "6" | 7 => "7" | 8 => "8" | 9 => "9" | 10 => "a" | 11 => "b"
  | 12 => "c" | 13 => "d" | 14 => "e" | _ => "f"
  end.

(** QuoteJSONString on one UTF-8 byte: the two-character escapes, the
    [\u00xx] form for the other control characters, the byte itself
    otherwise. *)
Definition escape_char (c : ascii) : string :=
  let n := nat_of_ascii c in
  if Nat.eqb n 34 then Str.backslash +:+ Str.dq
  else if Nat.eqb n 92 then Str.backslash +:+ Str.backslash
  else if Nat.eqb n 8 then Str.backslash +:+ "b"
  else if Nat.eqb n 9 then Str.backslash +:+ "t"
  else if Nat.eqb n 10 then Str.backslash +:+ "n"
  else if Nat.eqb n 12 then Str.backslash +:+ "f"
  else if Nat.eqb n 13 then Str.backslash +:+ "r"
  else if Nat.ltb n 32 then
    Str.backslash +:+ "u00" +:+ hex_digit (n / 16) +:+ hex_digit (n mod 16)
  else String c EmptyString.

Fixpoint escape (s : string) : string :=
  match s with
  | EmptyString => ""
  | String c rest => escape_char c +:+ escape rest
  end.

Definition quote (s : string) : string := Str.dq +:+ escape s +:+ Str.dq.

Definition gap : string := "  ".

(** SerializeJSONProperty with the two-space gap; [indent] is the current
    indentation. *)
Fixpoint serialize (indent : string) (v : value) : string :=
  match v with
  | JString s => quote s
  | JBool true => "true"
  | JBool false => "false"
  | JArray [] => "[]"
  | JArray items =>
      let inner := indent +:+ gap in
      "[" +:+ Str.nl +:+ inner
      +:+ Str.join ("," +:+ Str.nl +:+ inner) (map (serialize inner) items)
      +:+ Str.nl +:+ indent +:+ "]"
  | JObject [] => "{}"
  | JObject fields =>
      let inner := indent +:+ gap in
      "{" +:+ Str.nl +:+ inner
      +:+ Str.join ("," +:+ Str.nl +:+ inner)
            (map (fun kv => quote (fst kv) +:+ ": " +:+ serialize inner (snd kv))
                 fields)
      +:+ Str.nl +:+ indent +:+ "}"
  end.

Definition stringify (v : value) : string := serialize "" v.

Definition of_strings (xs : list string) : value := JArray (map JString xs).

Definition of_string_object (o : Obj.t string) : value :=
  JObject (map (fun kv => (fst kv, JString (snd kv))) o).

End Json.

(** ** Completions and the file-system log *)

(** The exceptions this program can raise. *)
Inductive js_error : Type :=
| OperationCancelled          (* the [Error] thrown by [onCancel] *)
| ReferenceError (ident : string)   (* [ident] is not defined *)
| TypeError (reading : string).     (* property [reading] of [undefined] *)

(** How an evaluation ends: with a value, with an exception, or with
    [process.exit(code)]. *)
Inductive completion (A : Type) : Type :=
| Normal (a : A)
| Throw (e : js_error)
| Exit (code : nat).

Arguments Normal {A} a.
Arguments Throw {A} e.
Arguments Exit {A} code.

Module Path.

(** An absolute, normalised POSIX path: its components below [/]. *)
Definition t : Type := list string.

(** One component of the relative part, as [path.normalize] treats it:
    empty and [.] components vanish, [..] drops the last component (and
    stays at the root), any other component is appended. *)
Definition step (base : t) (component : string) : t :=
  if String.eqb component "" then base
  else if String.eqb component "." then base
  else if String.eqb component ".." then removelast base
  else base ++ [component].

(** [path.join(base, rel)] for an absolute normalised [base]. A trailing
    separator of [rel], which Node keeps, is dropped: it names the same
    file. *)
Definition join (base : t) (rel : string) : t :=
  fold_left step (Str.split_slash rel) base.

End Path.

(** The calls into [node:fs] that change the file system. *)
Inductive fs_call : Type :=
| MkDir (dir : Path.t)                        (* [fs.mkdirSync(dir, { recursive: true })] *)
| WriteFile (file : Path.t) (data : string).  (* [fs.writeFileSync(file, data)] *)

(** A computation: the [fs] calls it made, in order, and how it ended.
    A call is recorded as made and as successful. [fs.mkdirSync] with
    [recursive] creates the missing ancestors, but [fs.writeFileSync]
    creates no directory and raises ENOENT when the directory of the file
    does not exist. A log is therefore what the program does as long as
    every file is written into a directory that exists. For [init], which
    starts from a directory it has just created, this is the case when no
    locale code holds a path separator: each file is then written into a
    directory that an earlier [fs.mkdirSync] of the same run created
    ([parents_created] below checks it). A locale code with a separator,
    such as [en/GB], names a file in a directory no call creates, and the
    run ends there with exit status 1; the log goes on past that point and
    is not what such a run does. The statements about whole runs in which
    locale files are written assume locale codes without a separator. *)
Definition IO (A : Type) : Type := list fs_call * completion A.

Definition ret {A : Type} (a : A) : IO A := ([], Normal a).

Definition bind {A B : Type} (m : IO A) (k : A -> IO B) : IO B :=
  match m with
  | (log, Normal a) => let (log', r) := k a in (log ++ log', r)
  | (log, Throw e) => (log, Throw e)
  | (log, Exit c) => (log, Exit c)
  end.

Definition lift {A : Type} (c : completion A) : IO A := ([], c).

Definition mkdirSync (dir : Path.t) : IO unit := ([MkDir dir], Normal tt).

Definition writeFileSync (file : Path.t) (data : string) : IO unit :=
  ([WriteFile file data], Normal tt).

Definition when (b : bool) (m : IO unit) : IO unit := if b then m else ret tt.

(** [xs.forEach(body)]. *)
Fixpoint forEach {A : Type} (xs : list A) (body : A -> IO unit) : IO unit :=
  match xs with
  | [] => ret tt
  | x :: rest => bind (body x) (fun _ => forEach rest body)
  end.

Notation "m ;; k" := (bind m (fun _ => k))
  (at level 61, right associativity).
Notation "x <- m ;; k" := (bind m (fun x => k))
  (at level 61, m at next level, right associativity).

Definition log_of {A : Type} (m : IO A) : list fs_call := fst m.
Definition outcome {A : Type} (m : IO A) : completion A := snd m.

(** A parameter with a default value: [None] is an omitted or [undefined]
    argument. *)
Definition or_default {A : Type} (arg : option A) (default : A) : A :=
  match arg with Some a => a | None => default end.

(** ** The feature catalog *)

Module Feature.

Record t : Type := {
  name : string;
  description : string;
  packages : list string;
  devPackages : list string
}.

End Feature.

Definition FEATURES : Obj.t Feature.t := [
  ("i18n", {|
    Feature.name := "Internationalization (i18n)";
    Feature.description := "Multi-language support with Inlang/Paraglide";
    Feature.packages := ["@inlang/cli"; "@inlang/paraglide-js"];
    Feature.devPackages := [] |});
  ("ui", {|
    Feature.name := "UI Components";
    Feature.description := "Radix UI + Tailwind CSS + shadcn/ui";
    Feature.packages := [
      "@radix-ui/react-accordion";
      "@radix-ui/react-avatar";
      "@radix-ui/react-checkbox";
      "@radix-ui/react-dialog";
      "@radix-ui/react-dropdown-menu";
      "@radix-ui/react-label";
      "@radix-ui/react-popover";
      "@radix-ui/react-slot";
      "@radix-ui/react-tooltip";
      "class-variance-authority";
      "clsx";
      "tailwind-merge";
      "lucide-react"];
    Feature.devPackages := ["@tailwindcss/vite"; "tailwindcss"; "autoprefixer"] |});
  ("state", {|
    Feature.name := "State Management";
    Feature.description := "Choose Jotai or Zustand for state management";
    Feature.packages := [];
    Feature.devPackages := [] |});
  ("auth", {|
    Feature.name := "Authentication";
    Feature.description := "Google OAuth integration";
    Feature.packages := ["cookie-es"];
    Feature.devPackages := ["@types/google.accounts"] |});
  ("animation", {|
    Feature.name := "Animations";
    Feature.description := "Framer Motion for smooth animations";
    Feature.packages := ["framer-motion"];
    Feature.devPackages := [] |});
  ("testing", {|
    Feature.name := "Testing Setup";
    Feature.description := "Vitest + Testing Library";
    Feature.packages := [];
    Feature.devPackages := [
      "@testing-library/jest-dom";
      "@testing-library/react";
      "@testing-library/user-event";
      "@vitest/ui";
      "vitest";
      "jsdom"] |});
  ("quality", {|
    Feature.name := "Code Quality";
    Feature.description := "Biome (linter/formatter) + Husky + lint-staged";
    Feature.packages := [];
    Feature.devPackages := ["@biomejs/biome"; "husky"; "lint-staged"] |});
  ("deploy", {|
    Feature.name := "Cloudflare Deployment";
    Feature.description := "Deploy to Cloudflare Pages using @cloudflare/vite-plugin";
    Feature.packages := ["@cloudflare/vite-plugin"];
    Feature.devPackages := ["wrangler"] |})
].

(** What [FEATURES[key]] evaluates to. [FEATURES] is an object literal, so
    a key that is no own property is looked up on [Object.prototype]. *)
Inductive catalog_entry : Type :=
| Own (config : Feature.t)
| Inherited (its_name : option string)  (* a member of [Object.prototype] and its [name] property *)
| Undefined.

(** The members of [Object.prototype] with the value of their [name]
    property: its methods are functions named after themselves, the
    constructor is [Object], and [__proto__] yields the prototype object,
    which has no [name]. *)
Definition Object_prototype : Obj.t (option string) := [
  ("constructor", Some "Object");
  ("__defineGetter__", Some "__defineGetter__");
  ("__defineSetter__", Some "__defineSetter__");
  ("hasOwnProperty", Some "hasOwnProperty");
  ("__lookupGetter__", Some "__lookupGetter__");
  ("__lookupSetter__", Some "__lookupSetter__");
  ("isPrototypeOf", Some "isPrototypeOf");
  ("propertyIsEnumerable", Some "propertyIsEnumerable");
  ("toString", Some "toString");
  ("valueOf", Some "valueOf");
  ("__proto__", None);
  ("toLocaleString", Some "toLocaleString")
].

Definition FEATURES_get (key : string) : catalog_entry :=
  match Obj.get key FEATURES with
  | Some config => Own config
  | None =>
      match Obj.get key Object_prototype with
      | Some its_name => Inherited its_name
      | None => Undefined
      end
  end.

(** The keys the feature prompt offers: [Object.entries(FEATURES)]. *)
Definition catalog_keys : list string := Obj.keys FEATURES.

Definition is_catalog_key (key : string) : bool := Obj.has key FEATURES.

(** ** The package manifest *)

Module Pkg.

(** The object [pkg] of [generatePackageJson]. The two optional members are
    created after the seven fixed ones, [lint-staged] before [pnpm]. *)
Record t : Type := {
  name : string;
  private : bool;
  sideEffects : bool;
  type : string;
  scripts : Obj.t string;
  dependencies : Obj.t string;
  devDependencies : Obj.t string;
  lint_staged : option (Obj.t (list string));
  pnpm : option (Obj.t (Obj.t string))
}.

Definition with_scripts (f : Obj.t string -> Obj.t string) (p : t) : t :=
  {| name := name p; private := private p; sideEffects := sideEffects p;
     type := type p; scripts := f (scripts p);
     dependencies := dependencies p; devDependencies := devDependencies p;
     lint_staged := lint_staged p; pnpm := pnpm p |}.

Definition with_dependencies (f : Obj.t string -> Obj.t string) (p : t) : t :=
  {| name := name p; private := private p; sideEffects := sideEffects p;
     type := type p; scripts := scripts p;
     dependencies := f (dependencies p); devDependencies := devDependencies p;
     lint_staged := lint_staged p; pnpm := pnpm p |}.

Definition with_devDependencies (f : Obj.t string -> Obj.t string) (p : t) : t :=
  {| name := name p; private := private p; sideEffects := sideEffects p;
     type := type p; scripts := scripts p;
     dependencies := dependencies p; devDependencies := f (devDependencies p);
     lint_staged := lint_staged p; pnpm := pnpm p |}.

Definition with_lint_staged (v : Obj.t (list string)) (p : t) : t :=
  {| name := name p; private := private p; sideEffects := sideEffects p;
     type := type p; scripts := scripts p;
     dependencies := dependencies p; devDependencies := devDependencies p;
     lint_staged := Some v; pnpm := pnpm p |}.

Definition with_pnpm (v : Obj.t (Obj.t string)) (p : t) : t :=
  {| name := name p; private := private p; sideEffects := sideEffects p;
     type := type p; scripts := scripts p;
     dependencies := dependencies p; devDependencies := devDependencies p;
     lint_staged := lint_staged p; pnpm := Some v |}.

Definition opt_field {A : Type} (key : string) (to_json : A -> Json.value)
    (v : option A) : list (string * Json.value) :=
  match v with Some a => [(key, to_json a)] | None => [] end.

(** The manifest as the JSON value [JSON.stringify] walks. *)
Definition to_json (p : t) : Json.value :=
  Json.JObject (
    [ ("name", Json.JString (name p));
      ("private", Json.JBool (private p));
      ("sideEffects", Json.JBool (sideEffects p));
      ("type", Json.JString (type p));
      ("scripts", Json.of_string_object (scripts p));
      ("dependencies", Json.of_string_object (dependencies p));
      ("devDependencies", Json.of_string_object (devDependencies p)) ]
    ++ opt_field "lint-staged"
         (fun o => Json.JObject (map (fun kv => (fst kv, Json.of_strings (snd kv))) o))
         (lint_staged p)
    ++ opt_field "pnpm"
         (fun o => Json.JObject (map (fun kv => (fst kv, Json.of_string_object (snd kv))) o))
         (pnpm p)).

End Pkg.

(** The literal [pkg] starts from. *)
Definition base_package (name : string) : Pkg.t := {|
  Pkg.name := name;
  Pkg.private := true;
  Pkg.sideEffects := false;
  Pkg.type := "module";
  Pkg.scripts := [
    ("dev", "vite dev --port 3000");
    ("build", "vite build");
    ("start", "node .output/server/index.mjs")];
  Pkg.dependencies := [
    ("@tanstack/react-query", "^5.83.0");
    ("@tanstack/react-router", "1.121.0");
    ("@tanstack/react-router-with-query", "1.121.0");
    ("react", "^19.1.0");
    ("react-dom", "^19.1.0");
    ("vite", "^6.3.5")];
  Pkg.devDependencies := [
    ("@tanstack/react-start", "1.121.0");
    ("@tanstack/router-core", "1.121.0");
    ("@tanstack/start-client-core", "1.121.0");
    ("@types/node", "^24.0.0");
    ("@types/react", "^19.1.7");
    ("@types/react-dom", "^19.1.6");
    ("vite-tsconfig-paths", "^5.1.4");
    ("@vitejs/plugin-react", "^5.0.4");
    ("typescript", "^5.8.3")];
  Pkg.lint_staged := None;
  Pkg.pnpm := None
|}.

(** The body of the loop over [features] for a catalog entry. *)
Definition add_packages (featureConfig : Feature.t) (pkg : Pkg.t) : Pkg.t :=
  let pkg :=
    Pkg.with_dependencies
      (Obj.set_all (Feature.packages featureConfig) "latest") pkg in
  Pkg.with_devDependencies
    (Obj.set_all (Feature.devPackages featureConfig) "latest") pkg.

(** [features.forEach((feature) => { ... })]: a key with no entry is
    skipped by the [if (featureConfig)] guard; a member of
    [Object.prototype] passes the guard and has no [packages] array. *)
Fixpoint add_feature_packages (features : list string) (pkg : Pkg.t)
    : completion Pkg.t :=
  match features with
  | [] => Normal pkg
  | feature :: rest =>
      match FEATURES_get feature with
      | Own featureConfig =>
          add_feature_packages rest (add_packages featureConfig pkg)
      | Inherited _ => Throw (TypeError "forEach")
      | Undefined => add_feature_packages rest pkg
      end
  end.

(** [packageManager === "pnpm" ? "pnpm " : ""]. *)
Definition pnpm_prefix (packageManager : string) : string :=
  if String.eqb packageManager "pnpm" then "pnpm " else "".

Definition pnpm_overrides : Obj.t (Obj.t string) := [
  ("overrides", [
    ("@tanstack/react-start-server", "1.121.0");
    ("@tanstack/start-server-core", "1.121.0");
    ("@tanstack/start-plugin-core", "1.121.0");
    ("@tanstack/react-start-plugin", "1.121.0");
    ("@tanstack/router-plugin", "1.121.0");
    ("@tanstack/router-generator", "1.121.0");
    ("@tanstack/server-functions-plugin", "1.121.0")])
].

(** The statements of [generatePackageJson] after the loop; none throws. *)
Definition add_state_libs (features stateLibs : list string) (pkg : Pkg.t) : Pkg.t :=
  if Str.includes features "state" then
    let pkg :=
      if Str.includes stateLibs "jotai"
      then Pkg.with_dependencies (Obj.set "jotai" "latest") pkg else pkg in
    if Str.includes stateLibs "zustand"
    then Pkg.with_dependencies (Obj.set "zustand" "latest") pkg else pkg
  else pkg.

Definition add_i18n_scripts (features : list string) (pkg : Pkg.t) : Pkg.t :=
  if Str.includes features "i18n" then
    Pkg.with_scripts
      (Obj.set "machine-translate"
         "inlang machine translate --project project.inlang") pkg
  else pkg.

Definition add_testing_scripts (features : list string) (pkg : Pkg.t) : Pkg.t :=
  if Str.includes features "testing" then
    let pkg := Pkg.with_scripts (Obj.set "test" "vitest run") pkg in
    let pkg := Pkg.with_scripts (Obj.set "test:watch" "vitest") pkg in
    Pkg.with_scripts (Obj.set "test:ui" "vitest --ui") pkg
  else pkg.

Definition add_quality (features : list string) (packageManager : string)
    (pkg : Pkg.t) : Pkg.t :=
  if Str.includes features "quality" then
    let pkg :=
      Pkg.with_scripts
        (Obj.set "lint" (pnpm_prefix packageManager +:+ "biome check src")) pkg in
    let pkg :=
      Pkg.with_scripts
        (Obj.set "lint:fix"
           (pnpm_prefix packageManager +:+ "biome check --write src")) pkg in
    let pkg := Pkg.with_scripts (Obj.set "prepare" "husky") pkg in
    Pkg.with_lint_staged
      [("*.{js,jsx,ts,tsx}",
        [pnpm_prefix packageManager +:+ "biome check src"])] pkg
  else pkg.

Definition add_pnpm (packageManager : string) (pkg : Pkg.t) : Pkg.t :=
  if String.eqb packageManager "pnpm" then Pkg.with_pnpm pnpm_overrides pkg
  else pkg.

Definition generatePackageJson (name : string) (features : list string)
    (packageManager : string) (stateLibs : option (list string))
    : completion Pkg.t :=
  let stateLibs := or_default stateLibs ["jotai"] in
  match add_feature_packages features (base_package name) with
  | Normal pkg =>
      let pkg := add_state_libs features stateLibs pkg in
      let pkg := add_i18n_scripts features pkg in
      let pkg := add_testing_scripts features pkg in
      let pkg := add_quality features packageManager pkg in
      let pkg := add_pnpm packageManager pkg in
      Normal pkg
  | Throw e => Throw e
  | Exit c => Exit c
  end.

(** ** Template text

    The template literals of [index.js], byte for byte. *)

Definition getClientCode : string :=
  "import { hydrateRoot } from 'react-dom/client'
import { StartClient } from '@tanstack/react-start'
import { createRouter } from './router'

const router = createRouter()

hydrateRoot(document, <StartClient router={router} />)
".

Definition getSSRCode : string :=
  "import { createStartHandler, defaultStreamHandler } from '@tanstack/react-start/server'
import { createRouter } from './router'

export default createStartHandler({
  createRouter: () => createRouter(),
})(defaultStreamHandler)
".

Definition getRouterCode : string :=
  "import { createRouter as createTanStackRouter } from '@tanstack/react-router'
import { QueryClient } from '@tanstack/react-query'
import { routeTree } from './routeTree.gen'

export function createRouter() {
  const queryClient = new QueryClient()

  return createTanStackRouter({
    routeTree,
    context: { queryClient },
    defaultPreload: 'intent',
  })
}

declare module '@tanstack/react-router' {
  interface Register {
    router: ReturnType<typeof createRouter>
  }
}
".

Definition getRootRouteCode : string :=
  "import { Outlet, createRootRoute } from '@tanstack/react-router'
import { QueryClientProvider, QueryClient } from '@tanstack/react-query'
import '../styles/global.css'

const queryClient = new QueryClient()

export const Route = createRootRoute({
  component: RootComponent,
})

function RootComponent() {
  return (
    <QueryClientProvider client={queryClient}>
      <div className=" +:+ Str.dq +:+ "min-h-screen bg-background" +:+ Str.dq +:+ ">
        <Outlet />
      </div>
    </QueryClientProvider>
  )
}
".

Definition getIndexRouteCode : string :=
  "import { createFileRoute } from '@tanstack/react-router'

export const Route = createFileRoute('/')({
  component: Home,
})

function Home() {
  return (
    <div className=" +:+ Str.dq +:+ "flex min-h-screen items-center justify-center" +:+ Str.dq +:+ ">
      <div className=" +:+ Str.dq +:+ "text-center" +:+ Str.dq +:+ ">
        <h1 className=" +:+ Str.dq +:+ "text-4xl font-bold mb-4" +:+ Str.dq +:+ ">
          Welcome to TanStack Start! 🚀
        </h1>
        <p className=" +:+ Str.dq +:+ "text-xl text-muted-foreground" +:+ Str.dq +:+ ">
          Start building something amazing
        </p>
      </div>
    </div>
  )
}
".

Definition getGlobalStyles : string :=
  "@tailwind base;
@tailwind components;
@tailwind utilities;

@layer base {
  :root {
    --background: 0 0% 100%;
    --foreground: 222.2 84% 4.9%;
    --muted: 210 40% 96.1%;
    --muted-foreground: 215.4 16.3% 46.9%;
  }

  .dark {
    --background: 222.2 84% 4.9%;
    --foreground: 210 40% 98%;
    --muted: 217.2 32.6% 17.5%;
    --muted-foreground: 215 20.2% 65.1%;
  }
}

@layer base {
  * {
    @apply border-border;
  }
  body {
    @apply bg-background text-foreground;
  }
}
".

Definition getGitignore : string :=
  "# Dependencies
node_modules
.pnp
.pnp.js

# Testing
coverage

# Production
dist
.output
.vinxi
.nitro

# Misc
.DS_Store
*.pem
.env
.env.local
.env.development.local
.env.test.local
.env.production.local

# Debug
npm-debug.log*
yarn-debug.log*
yarn-error.log*
pnpm-debug.log*

# IDE
.vscode
.idea
*.swp
*.swo
*~

# TanStack
.tanstack
routeTree.gen.ts
".

(** The [cn] helper written to [src/lib/utils.ts]. *)
Definition utils_ts : string :=
  "import { type ClassValue, clsx } from " +:+ Str.dq +:+ "clsx" +:+ Str.dq +:+ "
import { twMerge } from " +:+ Str.dq +:+ "tailwind-merge" +:+ Str.dq +:+ "

export function cn(...inputs: ClassValue[]) {
  return twMerge(clsx(inputs))
}
".

(** The store modules of [createStateSetup]. *)
Definition jotaiStore_ts : string :=
  "import { atom } from 'jotai'

export const countAtom = atom(0)
".

Definition zustandStore_ts : string :=
  "import { create } from 'zustand'

type CounterState = {
  count: number
  increment: () => void
  decrement: () => void
}

export const useCounterStore = create<CounterState>((set) => ({
  count: 0,
  increment: () => set((state) => ({ count: state.count + 1 })),
  decrement: () => set((state) => ({ count: state.count - 1 })),
}))
".

(** The module written by [createAuthSetup]. *)
Definition auth_ts : string :=
  "// Google OAuth setup
export const initGoogleAuth = () => {
  // Add your Google OAuth initialization here
  console.log('Google Auth initialized')
}
".

(** The files written by [createTestingSetup]. *)
Definition vitest_config_ts : string :=
  "import { defineConfig } from 'vitest/config'
import react from '@vitejs/plugin-react'
import tsconfigPaths from 'vite-tsconfig-paths'

export default defineConfig({
  plugins: [react(), tsconfigPaths()],
  test: {
    globals: true,
    environment: 'jsdom',
    setupFiles: './tests/setup.ts',
  },
})
".

Definition tests_setup_ts : string :=
  "import '@testing-library/jest-dom'
".

(** The editor configuration written by [createQualitySetup]. *)
Definition editorconfig : string :=
  "root = true

[*]
indent_style = space
indent_size = 2
end_of_line = lf
charset = utf-8
trim_trailing_whitespace = true
insert_final_newline = true
".

(** The literals of [createConfigFiles]. *)
Definition tailwind_config_mjs : string :=
  "/** @type {import('tailwindcss').Config} */
export default {
  content: ['./src/**/*.{js,jsx,ts,tsx}'],
  theme: {
    extend: {},
  },
}
".

Definition env_example : string :=
  "VITE_APP_TITLE=" +:+ Str.dq +:+ "My TanStack App" +:+ Str.dq.
Definition getViteConfig (features : list string) : string :=
  "import { defineConfig } from 'vite'
import { tanstackStart } from '@tanstack/react-start/plugin/vite'
import tsconfigPaths from 'vite-tsconfig-paths'
"
  +:+ (if Str.includes features "deploy"
   then "import cloudflare from '@cloudflare/vite-plugin'"
   else "")
  +:+ "

export default defineConfig({
  plugins: [
    tsconfigPaths({
      projects: ['./tsconfig.json'],
    }),
    tanstackStart(),
    "
  +:+ (if Str.includes features "deploy"
   then "cloudflare(),"
   else "")
  +:+ "
  ],
  "
  +:+ (if Str.includes features "deploy"
   then "build: {
    rollupOptions: {
      onwarn(warning, warn) {
        if (warning.code === 'MODULE_LEVEL_DIRECTIVE') {
          return;
        }
        warn(warning);
      },
      onLog(level, log, handler) {
        if (log.code === 'MODULE_LEVEL_DIRECTIVE') {
          return;
        }
        handler(level, log);
      },
    },
  },"
   else "")
  +:+ "
});
".

(** The [run] that only npm needs before a script name. *)
Definition run_prefix (packageManager : string) : string :=
  if String.eqb packageManager "npm" then "run " else "".

(** The template literal of [createReadme], given the lines of its feature
    list. *)
Definition readme_text (projectName : string) (lines : list string)
    (features : list string) (packageManager : string) : string :=
  "# "
  +:+ projectName
  +:+ "

A modern web application built with TanStack Start.

## Features

"
  +:+ Str.join Str.nl lines
  +:+ "

## Getting Started

1. Install dependencies:
```bash
"
  +:+ packageManager
  +:+ " install
```

2. Run the development server:
```bash
"
  +:+ packageManager
  +:+ " "
  +:+ run_prefix packageManager
  +:+ "dev
```

3. Open [http://localhost:3000](http://localhost:3000)

## Project Structure

```
"
  +:+ projectName
  +:+ "/
├── src/
│   ├── routes/        # Route components
│   ├── components/    # Reusable components
│   ├── utils/         # Utility functions
│   └── styles/        # Global styles
├── public/            # Static assets
└── package.json
```

## Available Scripts

- `"
  +:+ packageManager
  +:+ " "
  +:+ run_prefix packageManager
  +:+ "dev` - Start development server
- `"
  +:+ packageManager
  +:+ " "
  +:+ run_prefix packageManager
  +:+ "build` - Build for production
- `"
  +:+ packageManager
  +:+ " "
  +:+ run_prefix packageManager
  +:+ "start` - Start production server
"
  +:+ (if Str.includes features "testing"
   then "- `" +:+ packageManager +:+ " " +:+ run_prefix packageManager +:+ "test` - Run tests"
   else "")
  +:+ "
"
  +:+ (if Str.includes features "quality"
   then "- `" +:+ packageManager +:+ " " +:+ run_prefix packageManager +:+ "lint` - Lint code"
   else "")
  +:+ "

## Learn More

- [TanStack Start Documentation](https://tanstack.com/start)
- [React Documentation](https://react.dev)
"
  +:+ (if Str.includes features "ui"
   then "- [Tailwind CSS](https://tailwindcss.com)" +:+ Str.nl +:+ "- [Radix UI](https://radix-ui.com)"
   else "")
  +:+ "
"
  +:+ (if Str.includes features "i18n"
   then "- [Inlang](https://inlang.com)"
   else "")
  +:+ "

## License

MIT
".

(** ** The file emitters *)

Definition bind_completion {A B : Type} (c : completion A)
    (k : A -> completion B) : completion B :=
  match c with
  | Normal a => k a
  | Throw e => Throw e
  | Exit code => Exit code
  end.

Definition createBaseStructure (root : Path.t) : IO unit :=
  let dirs :=
    ["src"; "src/routes"; "src/components"; "src/utils"; "src/styles"; "public"] in
  forEach dirs (fun dir => mkdirSync (Path.join root dir)) ;;
  writeFileSync (Path.join root "src/client.tsx") getClientCode ;;
  writeFileSync (Path.join root "src/server.ts") getSSRCode ;;
  writeFileSync (Path.join root "src/router.tsx") getRouterCode ;;
  writeFileSync (Path.join root "src/routes/__root.tsx") getRootRouteCode ;;
  writeFileSync (Path.join root "src/routes/index.tsx") getIndexRouteCode ;;
  writeFileSync (Path.join root "src/styles/global.css") getGlobalStyles.

Definition inlang_settings (languages : list string) (baseLocale : string)
    : Json.value :=
  Json.JObject [
    ("$schema", Json.JString "https://inlang.com/schema/project-settings");
    ("baseLocale", Json.JString baseLocale);
    ("locales", Json.of_strings languages);
    ("modules", Json.of_strings [
      "https://cdn.jsdelivr.net/npm/@inlang/plugin-message-format@4/dist/index.js";
      "https://cdn.jsdelivr.net/npm/@inlang/plugin-m-function-matcher@2/dist/index.js"]);
    ("plugin.inlang.messageFormat", Json.JObject [
      ("pathPattern", Json.JString "./messages/{locale}.json")])
  ].

(** The built-in phrase table: the nested conditionals on [lang]. *)
Definition welcome_phrase (lang : string) : string :=
  if String.eqb lang "en" then "Welcome to your new app!"
  else if String.eqb lang "vi" then "Chào mừng đến với ứng dụng mới của bạn!"
  else "Welcome to your new app!".

Definition description_phrase (lang : string) : string :=
  if String.eqb lang "en" then "Start building something amazing"
  else if String.eqb lang "vi" then "Bắt đầu xây dựng điều gì đó tuyệt vời"
  else "Start building something amazing".

Definition messages (lang : string) : Json.value :=
  Json.JObject [
    ("welcome", Json.JString (welcome_phrase lang));
    ("description", Json.JString (description_phrase lang))
  ].

Definition createI18nSetup (root : Path.t) (languages : list string)
    (baseLocale : string) : IO unit :=
  let inlangDir := Path.join root "project.inlang" in
  mkdirSync inlangDir ;;
  writeFileSync (Path.join inlangDir "settings.json")
    (Json.stringify (inlang_settings languages baseLocale)) ;;
  let messagesDir := Path.join root "messages" in
  mkdirSync messagesDir ;;
  forEach languages (fun lang =>
    writeFileSync (Path.join messagesDir (lang +:+ ".json"))
      (Json.stringify (messages lang))).

Definition components_json : Json.value :=
  Json.JObject [
    ("$schema", Json.JString "https://ui.shadcn.com/schema.json");
    ("style", Json.JString "default");
    ("rsc", Json.JBool false);
    ("tsx", Json.JBool true);
    ("tailwind", Json.JObject [
      ("config", Json.JString "tailwind.config.mjs");
      ("css", Json.JString "src/styles/global.css");
      ("baseColor", Json.JString "slate");
      ("cssVariables", Json.JBool true)]);
    ("aliases", Json.JObject [
      ("components", Json.JString "@/components");
      ("utils", Json.JString "@/utils")])
  ].

Definition createUISetup (root : Path.t) : IO unit :=
  writeFileSync (Path.join root "components.json")
    (Json.stringify components_json) ;;
  mkdirSync (Path.join root "src/lib") ;;
  writeFileSync (Path.join root "src/lib/utils.ts") utils_ts.

Definition createStateSetup (root : Path.t) (stateLibs : option (list string))
    : IO unit :=
  let stateLibs := or_default stateLibs ["jotai"] in
  mkdirSync (Path.join root "src/store") ;;
  when (Str.includes stateLibs "jotai")
    (writeFileSync (Path.join root "src/store/jotaiStore.ts") jotaiStore_ts) ;;
  when (Str.includes stateLibs "zustand")
    (writeFileSync (Path.join root "src/store/zustandStore.ts") zustandStore_ts).

Definition createAuthSetup (root : Path.t) : IO unit :=
  mkdirSync (Path.join root "src/services") ;;
  writeFileSync (Path.join root "src/services/auth.ts") auth_ts.

Definition createTestingSetup (root : Path.t) : IO unit :=
  writeFileSync (Path.join root "vitest.config.ts") vitest_config_ts ;;
  mkdirSync (Path.join root "tests") ;;
  writeFileSync (Path.join root "tests/setup.ts") tests_setup_ts.

Definition biome_json : Json.value :=
  Json.JObject [
    ("$schema", Json.JString "https://biomejs.dev/schemas/1.9.4/schema.json");
    ("vcs", Json.JObject [
      ("enabled", Json.JBool true);
      ("clientKind", Json.JString "git");
      ("useIgnoreFile", Json.JBool true)]);
    ("files", Json.JObject [
      ("ignoreUnknown", Json.JBool false);
      ("ignore", Json.JArray [])]);
    ("formatter", Json.JObject [
      ("enabled", Json.JBool true);
      ("indentStyle", Json.JString "space")]);
    ("organizeImports", Json.JObject [("enabled", Json.JBool true)]);
    ("linter", Json.JObject [
      ("enabled", Json.JBool true);
      ("rules", Json.JObject [("recommended", Json.JBool true)])])
  ].

Definition createQualitySetup (root : Path.t) : IO unit :=
  writeFileSync (Path.join root "biome.json") (Json.stringify biome_json) ;;
  writeFileSync (Path.join root ".editorconfig") editorconfig.

Definition tsconfig_json (features : list string) : Json.value :=
  Json.JObject [
    ("include", Json.of_strings ["**/*.ts"; "**/*.tsx"]);
    ("compilerOptions", Json.JObject [
      ("strict", Json.JBool true);
      ("esModuleInterop", Json.JBool true);
      ("jsx", Json.JString "react-jsx");
      ("module", Json.JString "ESNext");
      ("moduleResolution", Json.JString "Bundler");
      ("lib", Json.of_strings ["DOM"; "DOM.Iterable"; "ES2023"]);
      ("isolatedModules", Json.JBool true);
      ("resolveJsonModule", Json.JBool true);
      ("skipLibCheck", Json.JBool true);
      ("target", Json.JString "ES2022");
      ("allowJs", Json.JBool true);
      ("forceConsistentCasingInFileNames", Json.JBool true);
      ("baseUrl", Json.JString ".");
      ("paths", Json.JObject [("@/*", Json.of_strings ["./src/*"])]);
      ("types",
        if Str.includes features "testing"
        then Json.of_strings ["vitest/globals"; "@testing-library/jest-dom"]
        else Json.JArray []);
      ("noEmit", Json.JBool true)])
  ].

(** Evaluating an identifier that no enclosing scope binds. *)
Definition unbound_identifier {A : Type} (ident : string) : completion A :=
  Throw (ReferenceError ident).

(** The object literal handed to [JSON.stringify] for [wrangler.json]. Its
    first member reads [projectName]. Inside [createConfigFiles] the names
    in scope are its parameters [root] and [features] and the declarations
    of the module; [projectName] is a constant local to [init], so the
    read finds no binding. *)
Definition wrangler_json : completion Json.value :=
  bind_completion (unbound_identifier "projectName") (fun projectName =>
  Normal (Json.JObject [
    ("name", Json.JString projectName);
    ("pages_build_output_dir", Json.JString "dist/client");
    ("compatibility_date", Json.JString "2024-01-01");
    ("compatibility_flags", Json.of_strings ["nodejs_compat"])])).

Definition createConfigFiles (root : Path.t) (features : list string) : IO unit :=
  writeFileSync (Path.join root "tsconfig.json")
    (Json.stringify (tsconfig_json features)) ;;
  writeFileSync (Path.join root "vite.config.ts") (getViteConfig features) ;;
  when (Str.includes features "ui")
    (writeFileSync (Path.join root "tailwind.config.mjs") tailwind_config_mjs) ;;
  writeFileSync (Path.join root ".env.example") env_example ;;
  when (Str.includes features "deploy")
    (config <- lift wrangler_json ;;
     writeFileSync (Path.join root "wrangler.json") (Json.stringify config)).

(** [features.map((f) => `- ✅ ${FEATURES[f].name}`)]: reading [name] off a
    missing entry throws; a member of [Object.prototype] has its own
    [name], or none, which the template prints as [undefined]. *)
Fixpoint feature_lines (features : list string) : completion (list string) :=
  match features with
  | [] => Normal []
  | f :: rest =>
      bind_completion
        (match FEATURES_get f with
         | Own config => Normal ("- ✅ " +:+ Feature.name config)
         | Inherited (Some its_name) => Normal ("- ✅ " +:+ its_name)
         | Inherited None => Normal "- ✅ undefined"
         | Undefined => Throw (TypeError "name")
         end)
        (fun line =>
           bind_completion (feature_lines rest) (fun lines =>
           Normal (line :: lines)))
  end.

Definition createReadme (root : Path.t) (projectName : string)
    (features : list string) (packageManager : string) : IO unit :=
  lines <- lift (feature_lines features) ;;
  let readme := readme_text projectName lines features packageManager in
  writeFileSync (Path.join root "README.md") readme.

(** ** The driver *)

Module Answers.

(** The object [prompts] resolves to. A question that was skipped (its
    [type] evaluated to [null]) leaves its member undefined. *)
Record t : Type := {
  projectName : string;
  packageManager : string;
  features : option (list string);
  languages : option (list string);
  baseLocale : option string;
  initGit : bool;
  stateLibs : option (list string)
}.

End Answers.

(** The collaborators of one run: the prompt session either ends with
    answers or is cancelled, which makes [onCancel] throw. *)
Inductive prompt_session : Type :=
| Answered (result : Answers.t)
| Cancelled.

Definition prompts (session : prompt_session) : completion Answers.t :=
  match session with
  | Answered result => Normal result
  | Cancelled => Throw OperationCancelled
  end.

(** [init], given the working directory, the state of the file system
    when the run starts (what [fs.existsSync] answers) and the prompt
    session. *)
Definition init (cwd : Path.t) (existsSync : Path.t -> bool)
    (session : prompt_session) : IO unit :=
  result <- lift (match prompts session with
                  | Throw cancelled => Exit 1
                  | r => r
                  end) ;;
  let projectName := Answers.projectName result in
  let packageManager := Answers.packageManager result in
  let features := or_default (Answers.features result) [] in
  let languages := or_default (Answers.languages result) ["en"] in
  let baseLocale := or_default (Answers.baseLocale result) "en" in
  let initGit := Answers.initGit result in
  let stateLibs := or_default (Answers.stateLibs result) ["jotai"] in
  let root := Path.join cwd projectName in
  if existsSync root then lift (Exit 1)
  else
    mkdirSync root ;;
    packageJson <- lift (generatePackageJson projectName features
                           packageManager (Some stateLibs)) ;;
    writeFileSync (Path.join root "package.json")
      (Json.stringify (Pkg.to_json packageJson)) ;;
    createBaseStructure root ;;
    when (Str.includes features "i18n")
      (createI18nSetup root languages baseLocale) ;;
    when (Str.includes features "ui") (createUISetup root) ;;
    when (Str.includes features "state")
      (createStateSetup root (Some stateLibs)) ;;
    when (Str.includes features "auth") (createAuthSetup root) ;;
    when (Str.includes features "testing") (createTestingSetup root) ;;
    when (Str.includes features "quality") (createQualitySetup root) ;;
    createConfigFiles root features ;;
    createReadme root projectName features packageManager ;;
    when initGit (writeFileSync (Path.join root ".gitignore") getGitignore).

(** The exit status of the process: [init().catch(...)] turns an escaping
    exception into [process.exit(1)]; a run that returns exits with 0. *)
Definition exit_status {A : Type} (c : completion A) : nat :=
  match c with
  | Normal _ => 0
  | Throw _ => 1
  | Exit code => code
  end.

Definition main (cwd : Path.t) (existsSync : Path.t -> bool)
    (session : prompt_session) : list fs_call * nat :=
  let run := init cwd existsSync session in
  (log_of run, exit_status (outcome run)).

(** ** The questions of the prompt session *)

Module Choice.

(** A choice of a select or multiselect question. A member the literal
    leaves out is [None], or [false] for [selected]. *)
Record t : Type := {
  title : string;
  value : string;
  description : option string;
  selected : bool
}.

End Choice.

(** What a [validate] callback returns: [true], or the message to show. *)
Inductive validation : Type :=
| Valid
| Invalid (message : string).

(** One character of the class [[a-z0-9-_]] under the flag [i]: a letter
    of either case, a digit, a dash or an underscore. No code unit above
    127 folds to one of them. *)
Definition name_char (c : ascii) : bool :=
  let n := nat_of_ascii c in
  (Nat.leb 97 n && Nat.leb n 122) || (Nat.leb 65 n && Nat.leb n 90)
  || (Nat.leb 48 n && Nat.leb n 57) || Nat.eqb n 45 || Nat.eqb n 95.

Fixpoint all_name_chars (s : string) : bool :=
  match s with
  | EmptyString => true
  | String c rest => name_char c && all_name_chars rest
  end.

(** [/^[a-z0-9-_]+$/i.test(name)]. *)
Definition name_pattern_test (name : string) : bool :=
  negb (String.eqb name "") && all_name_chars name.

(** The [validate] callback of the question [projectName]. *)
Definition validate_projectName (name : string) : validation :=
  if String.eqb name "" then Invalid "Project name is required"
  else if negb (name_pattern_test name) then
    Invalid "Project name can only contain letters, numbers, dashes and underscores"
  else Valid.

Definition packageManager_choices : list Choice.t := [
  {| Choice.title := "pnpm"; Choice.value := "pnpm";
     Choice.description := None; Choice.selected := false |};
  {| Choice.title := "npm"; Choice.value := "npm";
     Choice.description := None; Choice.selected := false |};
  {| Choice.title := "yarn"; Choice.value := "yarn";
     Choice.description := None; Choice.selected := false |}
].

(** [Object.entries(FEATURES).map(...)]: one choice per catalog entry, in
    the order of the catalog, [ui] and [quality] preselected. *)
Definition features_choices : list Choice.t :=
  map (fun entry =>
         let key := fst entry in
         let feature := snd entry in
         {| Choice.title := Feature.name feature;
            Choice.value := key;
            Choice.description := Some (Feature.description feature);
            Choice.selected := Str.includes ["ui"; "quality"] key |})
      FEATURES.

(** The [type] callbacks: a question whose type is [null] is skipped. *)
Definition stateLibs_type (features : list string) : option string :=
  if Str.includes features "state" then Some "multiselect" else None.

Definition languages_type (features : list string) : option string :=
  if Str.includes features "i18n" then Some "multiselect" else None.

Definition baseLocale_type (features : list string) : option string :=
  if Str.includes features "i18n" then Some "select" else None.



Definition languages_choices : list Choice.t := [
  {| Choice.title := "English"; Choice.value := "en";
     Choice.description := None; Choice.selected := true |};
  {| Choice.title := "Vietnamese"; Choice.value := "vi";
     Choice.description := None; Choice.selected := true |};
  {| Choice.title := "Japanese"; Choice.value := "ja";
     Choice.description := None; Choice.selected := false |};
  {| Choice.title := "Korean"; Choice.value := "ko";
     Choice.description := None; Choice.selected := false |};
  {| Choice.title := "Chinese (Simplified)"; Choice.value := "zh";
     Choice.description := None; Choice.selected := false |}
].

(** The nested conditional that titles a base-locale choice. *)
Definition language_title (lang : string) : string :=
  if String.eqb lang "en" then "English"
  else if String.eqb lang "vi" then "Vietnamese"
  else if String.eqb lang "ja" then "Japanese"
  else if String.eqb lang "ko" then "Korean"
  else if String.eqb lang "zh" then "Chinese (Simplified)"
  else lang.

(** The [choices] callback of the question [baseLocale], on the answer to
    the question [languages] ([values.languages || ["en"]]). *)
Definition baseLocale_choices (languages : option (list string))
    : list Choice.t :=
  let selected := or_default languages ["en"] in
  map (fun lang =>
         {| Choice.title := language_title lang; Choice.value := lang;
            Choice.description := None; Choice.selected := false |})
      selected.

(** ** Auxiliary definitions for the properties *)

(** No key of the selection names a member of [Object.prototype]. *)
Definition no_prototype_key (features : list string) : bool :=
  forallb (fun f => match FEATURES_get f with Inherited _ => false | _ => true end)
          features.

(** The packages the loop over [features] writes, in the order it writes
    them. *)
Definition selected_packages (features : list string) : list string :=
  flat_map (fun f => match FEATURES_get f with
                     | Own config => Feature.packages config
                     | _ => []
                     end) features.

Definition selected_devPackages (features : list string) : list string :=
  flat_map (fun f => match FEATURES_get f with
                     | Own config => Feature.devPackages config
                     | _ => []
                     end) features.

Definition merged (features : list string) (pkg : Pkg.t) : Pkg.t :=
  Pkg.with_devDependencies
    (Obj.set_all (selected_devPackages features) "latest")
    (Pkg.with_dependencies
       (Obj.set_all (selected_packages features) "latest") pkg).

(** The manifest of a selection on which the loop does not throw. *)
Definition manifest (name : string) (features : list string)
    (packageManager : string) (stateLibs : option (list string)) : Pkg.t :=
  add_pnpm packageManager
    (add_quality features packageManager
       (add_testing_scripts features
          (add_i18n_scripts features
             (add_state_libs features (or_default stateLibs ["jotai"])
                (merged features (base_package name)))))).

(** The [dependencies] member: the base toolchain, then the packages of the
    selected features, then the chosen state libraries. *)
Definition state_dependencies (features stateLibs : list string)
    (deps : Obj.t string) : Obj.t string :=
  if Str.includes features "state" then
    let deps :=
      if Str.includes stateLibs "jotai"
      then Obj.set "jotai" "latest" deps else deps in
    if Str.includes stateLibs "zustand"
    then Obj.set "zustand" "latest" deps else deps
  else deps.

(** The [scripts] member only depends on which of three features are
    selected and on the package manager. *)
Definition scripts_of (i18n testing quality : bool) (packageManager : string)
    : Obj.t string :=
  let s := Pkg.scripts (base_package "") in
  let s :=
    if i18n
    then Obj.set "machine-translate"
           "inlang machine translate --project project.inlang" s
    else s in
  let s :=
    if testing
    then Obj.set "test:ui" "vitest --ui"
           (Obj.set "test:watch" "vitest" (Obj.set "test" "vitest run" s))
    else s in
  if quality
  then Obj.set "prepare" "husky"
         (Obj.set "lint:fix"
            (pnpm_prefix packageManager +:+ "biome check --write src")
            (Obj.set "lint" (pnpm_prefix packageManager +:+ "biome check src") s))
  else s.

(** The members of a serialised object. *)
Definition json_fields (v : Json.value) : list (string * Json.value) :=
  match v with
  | Json.JObject fields => fields
  | _ => []
  end.

(** Two manifests that differ at most in the order in which their
    [dependencies] and [devDependencies] are listed. *)
Definition same_up_to_dependency_order (p q : Pkg.t) : Prop :=
  Pkg.name p = Pkg.name q
  /\ Pkg.private p = Pkg.private q
  /\ Pkg.sideEffects p = Pkg.sideEffects q
  /\ Pkg.type p = Pkg.type q
  /\ Pkg.scripts p = Pkg.scripts q
  /\ Pkg.lint_staged p = Pkg.lint_staged q
  /\ Pkg.pnpm p = Pkg.pnpm q
  /\ (forall k, Obj.get k (Pkg.dependencies p) = Obj.get k (Pkg.dependencies q))
  /\ (forall k, Obj.get k (Pkg.devDependencies p)
                = Obj.get k (Pkg.devDependencies q))
  /\ Permutation (Pkg.dependencies p) (Pkg.dependencies q)
  /\ Permutation (Pkg.devDependencies p) (Pkg.devDependencies q).

(** Every package name of the catalog. *)
Definition catalog_packages : list string :=
  flat_map (fun entry => Feature.packages (snd entry)) FEATURES.

(** Every entry of [o] is still an entry of [o'], possibly with another
    value. *)
Definition keeps_entries (o o' : Obj.t string) : Prop :=
  forall k v, Obj.get k o = Some v -> exists v', Obj.get k o' = Some v'.

(** Reading a log of [fs] calls. *)

Fixpoint path_eqb (p q : Path.t) : bool :=
  match p, q with
  | [], [] => true
  | a :: p', b :: q' => String.eqb a b && path_eqb p' q'
  | _, _ => false
  end.

(** The data of the [writeFileSync] calls of [log] that target [file], in
    order. *)
Fixpoint writes_to (file : Path.t) (log : list fs_call) : list string :=
  match log with
  | [] => []
  | WriteFile f data :: rest =>
      if path_eqb f file then data :: writes_to file rest
      else writes_to file rest
  | MkDir _ :: rest => writes_to file rest
  end.

(** The files a log writes, in order. *)
Fixpoint written_files (log : list fs_call) : list Path.t :=
  match log with
  | [] => []
  | WriteFile f _ :: rest => f :: written_files rest
  | MkDir _ :: rest => written_files rest
  end.

(** A call on a path given relative to [root]. *)
Definition under (root : Path.t) (call : fs_call) : fs_call :=
  match call with
  | MkDir dir => MkDir (root ++ dir)
  | WriteFile file data => WriteFile (root ++ file) data
  end.

(** A path component that [path.join] appends as it is. *)
Definition plain (component : string) : bool :=
  negb (String.eqb component "") && negb (String.eqb component ".")
  && negb (String.eqb component "..").

(** The calls of [createI18nSetup], relative to [root], when no locale
    code holds a path separator. *)
Definition message_file (lang : string) : Path.t :=
  ["messages"; lang +:+ ".json"].

Definition i18n_log (languages : list string) (baseLocale : string)
    : list fs_call :=
  [ MkDir ["project.inlang"];
    WriteFile ["project.inlang"; "settings.json"]
      (Json.stringify (inlang_settings languages baseLocale));
    MkDir ["messages"] ]
  ++ map (fun lang =>
            WriteFile (message_file lang) (Json.stringify (messages lang)))
         languages.

(** The calls of a run that reaches generation, relative to the project
    directory: those before and those after [createI18nSetup]. *)
Definition features_of (a : Answers.t) : list string :=
  or_default (Answers.features a) [].
Definition languages_of (a : Answers.t) : list string :=
  or_default (Answers.languages a) ["en"].
Definition baseLocale_of (a : Answers.t) : string :=
  or_default (Answers.baseLocale a) "en".
Definition stateLibs_of (a : Answers.t) : list string :=
  or_default (Answers.stateLibs a) ["jotai"].

Definition root_of (cwd : Path.t) (a : Answers.t) : Path.t :=
  Path.join cwd (Answers.projectName a).

Definition log_before_i18n (a : Answers.t) : list fs_call :=
  [ MkDir [];
    WriteFile ["package.json"]
      (Json.stringify
         (Pkg.to_json
            (manifest (Answers.projectName a) (features_of a)
               (Answers.packageManager a) (Some (stateLibs_of a))))) ]
  ++ log_of (createBaseStructure []).

Definition log_after_config (a : Answers.t) : list fs_call :=
  if Str.includes (features_of a) "deploy" then []
  else
    log_of (createReadme [] (Answers.projectName a) (features_of a)
              (Answers.packageManager a))
    ++ match feature_lines (features_of a) with
       | Normal _ =>
           if Answers.initGit a then [WriteFile [".gitignore"] getGitignore]
           else []
       | _ => []
       end.

Definition log_after_i18n (a : Answers.t) : list fs_call :=
  (if Str.includes (features_of a) "ui" then log_of (createUISetup []) else [])
  ++ (if Str.includes (features_of a) "state"
      then log_of (createStateSetup [] (Some (stateLibs_of a))) else [])
  ++ (if Str.includes (features_of a) "auth"
      then log_of (createAuthSetup []) else [])
  ++ (if Str.includes (features_of a) "testing"
      then log_of (createTestingSetup []) else [])
  ++ (if Str.includes (features_of a) "quality"
      then log_of (createQualitySetup []) else [])
  ++ log_of (createConfigFiles [] (features_of a))
  ++ log_after_config a.



(** Sessions used as examples: project [demo], created in [/home]. *)
Definition answers (packageManager : string) (features : list string)
    (languages : option (list string)) (stateLibs : option (list string))
    (initGit : bool) : Answers.t :=
  {| Answers.projectName := "demo";
     Answers.packageManager := packageManager;
     Answers.features := Some features;
     Answers.languages := languages;
     Answers.baseLocale := match languages with Some _ => Some "en" | None => None end;
     Answers.initGit := initGit;
     Answers.stateLibs := stateLibs |}.

Definition fresh : Path.t -> bool := fun _ => false.
Definition occupied : Path.t -> bool := fun _ => true.

Definition catalog_devPackages : list string :=
  flat_map (fun entry => Feature.devPackages (snd entry)) FEATURES.

(** The store modules of [createStateSetup], relative to the project
    directory. *)
Definition jotai_store : Path.t := ["src"; "store"; "jotaiStore.ts"].
Definition zustand_store : Path.t := ["src"; "store"; "zustandStore.ts"].


(** The line of the README for one key, and whether [FEATURES[key]] is
    something to read [name] from. *)
Definition has_entry (key : string) : bool :=
  match FEATURES_get key with Undefined => false | _ => true end.

Definition feature_line (key : string) : string :=
  match FEATURES_get key with
  | Own config => "- ✅ " +:+ Feature.name config
  | Inherited (Some its_name) => "- ✅ " +:+ its_name
  | _ => "- ✅ undefined"
  end.

(** The calls of a run that reaches generation, relative to the project
    directory, when no locale code holds a path separator. *)
Definition generation_log (a : Answers.t) : list fs_call :=
  log_before_i18n a
  ++ (if Str.includes (features_of a) "i18n"
      then i18n_log (languages_of a) (baseLocale_of a) else [])
  ++ log_after_i18n a.

(** The path a call acts on. *)
Definition path_of (call : fs_call) : Path.t :=
  match call with
  | MkDir dir => dir
  | WriteFile file _ => file
  end.

(** The files a run that reaches generation writes, in order, relative to
    the project directory. *)
Definition base_files : list Path.t := [
  ["package.json"];
  ["src"; "client.tsx"];
  ["src"; "server.ts"];
  ["src"; "router.tsx"];
  ["src"; "routes"; "__root.tsx"];
  ["src"; "routes"; "index.tsx"];
  ["src"; "styles"; "global.css"]
].

Definition i18n_files (languages : list string) : list Path.t :=
  ["project.inlang"; "settings.json"] :: map message_file languages.

Definition expected_files (a : Answers.t) : list Path.t :=
  let selected := Str.includes (features_of a) in
  base_files
  ++ (if selected "i18n" then i18n_files (languages_of a) else [])
  ++ (if selected "ui"
      then [["components.json"]; ["src"; "lib"; "utils.ts"]] else [])
  ++ (if selected "state"
      then (if Str.includes (stateLibs_of a) "jotai" then [jotai_store] else [])
           ++ (if Str.includes (stateLibs_of a) "zustand"
               then [zustand_store] else [])
      else [])
  ++ (if selected "auth" then [["src"; "services"; "auth.ts"]] else [])
  ++ (if selected "testing"
      then [["vitest.config.ts"]; ["tests"; "setup.ts"]] else [])
  ++ (if selected "quality" then [["biome.json"]; [".editorconfig"]] else [])
  ++ [["tsconfig.json"]; ["vite.config.ts"]]
  ++ (if selected "ui" then [["tailwind.config.mjs"]] else [])
  ++ [[".env.example"]]
  ++ (if selected "deploy" then []
      else if forallb has_entry (features_of a)
           then ["README.md"]
                :: (if Answers.initGit a then [[".gitignore"]] else [])
           else []).



(** Every file but the locale files that a run can write. *)
Definition optional_files : list Path.t := [
  ["components.json"]; ["src"; "lib"; "utils.ts"];
  ["src"; "store"; "jotaiStore.ts"]; ["src"; "store"; "zustandStore.ts"];
  ["src"; "services"; "auth.ts"];
  ["vitest.config.ts"]; ["tests"; "setup.ts"];
  ["biome.json"]; [".editorconfig"];
  ["tsconfig.json"]; ["vite.config.ts"];
  ["tailwind.config.mjs"];
  [".env.example"];
  ["README.md"]; [".gitignore"]
].

(** Whether every [writeFileSync] of [log] targets a file (not the root)
    whose directory is in [created] or was the target of an earlier
    [mkdirSync] of [log]. *)
Fixpoint parents_created (created : list Path.t) (log : list fs_call) : bool :=
  match log with
  | [] => true
  | MkDir dir :: rest => parents_created (dir :: created) rest
  | WriteFile file _ :: rest =>
      match file with
      | [] => false
      | _ => existsb (path_eqb (removelast file)) created
      end
      && parents_created created rest
  end.

(** Equality of paths is decidable. *)
Definition path_dec : forall p q : Path.t, {p = q} + {p <> q} :=
  list_eq_dec string_dec.




(** * Properties *)

(** ** Arrays of strings and plain objects *)

Lemma includes_In (xs : list string) (x : string) :
  Str.includes xs x = true <-> In x xs.
Proof.
  unfold Str.includes. rewrite existsb_exists. split.
  - intros [y [Hy Heq]]. apply String.eqb_eq in Heq. now subst.
  - intros H. exists x. split; [assumption | apply String.eqb_refl].
Qed.

Lemma includes_ext (xs ys : list string) :
  (forall x, In x xs <-> In x ys) ->
  forall x, Str.includes xs x = Str.includes ys x.
Proof.
  intros H x.
  destruct (Str.includes xs x) eqn:E1, (Str.includes ys x) eqn:E2; try reflexivity.
  - apply includes_In, H, includes_In in E1. congruence.
  - apply includes_In, H, includes_In in E2. congruence.
Qed.

Lemma includes_app (xs ys : list string) (x : string) :
  Str.includes (xs ++ ys) x = Str.includes xs x || Str.includes ys x.
Proof. unfold Str.includes. apply existsb_app. Qed.

Lemma includes_perm (xs ys : list string) :
  Permutation xs ys -> forall x, Str.includes xs x = Str.includes ys x.
Proof.
  intros H. apply includes_ext. intros x. split; apply Permutation_in.
  - assumption.
  - now apply Permutation_sym.
Qed.

Section ObjectFacts.

Context {V : Type}.
Implicit Types (o : Obj.t V) (k : string) (v : V).

Lemma get_set_same k v o : Obj.get k (Obj.set k v o) = Some v.
Proof.
  induction o as [|[k' v'] o IH]; simpl.
  - now rewrite String.eqb_refl.
  - destruct (String.eqb k k') eqn:E; simpl; rewrite E; auto.
Qed.

Lemma get_set_other k k' v o :
  k <> k' -> Obj.get k' (Obj.set k v o) = Obj.get k' o.
Proof.
  intros Hne. induction o as [|[k0 v0] o IH]; simpl.
  - destruct (String.eqb_spec k' k); congruence.
  - destruct (String.eqb_spec k k0); simpl.
    + subst k0. destruct (String.eqb_spec k' k); congruence.
    + now rewrite IH.
Qed.

Lemma get_set k k' v o :
  Obj.get k' (Obj.set k v o) = if String.eqb k' k then Some v else Obj.get k' o.
Proof.
  destruct (String.eqb_spec k' k).
  - subst. apply get_set_same.
  - apply get_set_other. congruence.
Qed.

Lemma set_all_cons k ks v o :
  Obj.set_all (k :: ks) v o = Obj.set_all ks v (Obj.set k v o).
Proof. reflexivity. Qed.

Lemma set_all_app ks ks' v o :
  Obj.set_all (ks ++ ks') v o = Obj.set_all ks' v (Obj.set_all ks v o).
Proof. unfold Obj.set_all. apply fold_left_app. Qed.

Lemma get_set_all k ks v o :
  Obj.get k (Obj.set_all ks v o)
  = if Str.includes ks k then Some v else Obj.get k o.
Proof.
  revert o. induction ks as [|a ks IH]; intros o.
  - reflexivity.
  - rewrite set_all_cons, IH. unfold Str.includes. simpl.
    fold (Str.includes ks k).
    destruct (Str.includes ks k).
    + now rewrite orb_true_r.
    + rewrite orb_false_r. apply get_set.
Qed.

Lemma has_get k o : Obj.has k o = true <-> exists v, Obj.get k o = Some v.
Proof.
  unfold Obj.has. destruct (Obj.get k o) as [v|].
  - split; [intros _; now exists v | reflexivity].
  - split; [discriminate | intros [v Hv]; discriminate].
Qed.

Lemma get_In k v o : Obj.get k o = Some v -> In (k, v) o.
Proof.
  induction o as [|[k' v'] o IH]; simpl; [discriminate|].
  destruct (String.eqb_spec k k').
  - intros [= ->]. subst. now left.
  - intros H. right. auto.
Qed.

Lemma get_None_keys k o : Obj.get k o = None <-> ~ In k (Obj.keys o).
Proof.
  induction o as [|[k' v'] o IH]; simpl.
  - tauto.
  - destruct (String.eqb_spec k k').
    + subst. split; [discriminate | intros H; exfalso; apply H; now left].
    + rewrite IH. split; intros H; [intros [E | Hin]; [congruence | tauto] | tauto].
Qed.

(** Writing a property keeps the keys distinct. *)
Lemma keys_set k v o :
  Obj.keys (Obj.set k v o)
  = if Obj.has k o then Obj.keys o else Obj.keys o ++ [k].
Proof.
  unfold Obj.has.
  induction o as [|[k' v'] o IH]; simpl; [reflexivity|].
  destruct (String.eqb k k') eqn:E; simpl; [reflexivity|].
  rewrite IH. now destruct (Obj.get k o).
Qed.

Lemma NoDup_keys_set k v o :
  NoDup (Obj.keys o) -> NoDup (Obj.keys (Obj.set k v o)).
Proof.
  intros H. rewrite keys_set. unfold Obj.has.
  destruct (Obj.get k o) eqn:E; [assumption|].
  apply get_None_keys in E.
  apply NoDup_rev in H. rewrite <- (rev_involutive (Obj.keys o ++ [k])).
  apply NoDup_rev. rewrite rev_app_distr. simpl. constructor; [|assumption].
  now rewrite <- in_rev.
Qed.

Lemma NoDup_keys_set_all ks v o :
  NoDup (Obj.keys o) -> NoDup (Obj.keys (Obj.set_all ks v o)).
Proof.
  revert o. induction ks as [|a ks IH]; intros o H; [assumption|].
  rewrite set_all_cons. apply IH. now apply NoDup_keys_set.
Qed.

(** Two objects with distinct keys and the same lookups hold the same
    entries, up to their order. *)
Lemma same_lookups_Permutation o1 o2 :
  NoDup (Obj.keys o1) -> NoDup (Obj.keys o2) ->
  (forall k, Obj.get k o1 = Obj.get k o2) ->
  Permutation o1 o2.
Proof.
  revert o2. induction o1 as [|[k v] o1 IH]; intros o2 H1 H2 Hget.
  - destruct o2 as [|[k' v'] o2]; [constructor|].
    specialize (Hget k'). simpl in Hget. now rewrite String.eqb_refl in Hget.
  - assert (Hin : In (k, v) o2).
    { apply get_In. rewrite <- Hget. simpl. now rewrite String.eqb_refl. }
    apply in_split in Hin. destruct Hin as [a [b ->]].
    apply Permutation_cons_app. simpl in H1. inversion H1 as [|? ? Hk H1']; subst.
    unfold Obj.keys in H2. rewrite map_app in H2. simpl in H2.
    pose proof (NoDup_remove_1 _ _ _ H2) as H2'.
    pose proof (NoDup_remove_2 _ _ _ H2) as Hk2.
    apply IH; [assumption | unfold Obj.keys; now rewrite map_app |].
    intros k'. destruct (String.eqb_spec k' k) as [->|Hne].
    + transitivity (@None V).
      * now apply get_None_keys.
      * symmetry. apply get_None_keys. unfold Obj.keys. now rewrite map_app.
    + specialize (Hget k'). simpl in Hget.
      destruct (String.eqb_spec k' k); [congruence|].
      rewrite Hget. clear -n.
      induction a as [|[ka va] a IHa]; simpl.
      * destruct (String.eqb_spec k' k); congruence.
      * now rewrite IHa.
Qed.

End ObjectFacts.

(** ** What [generatePackageJson] returns *)

Lemma add_feature_packages_spec (features : list string) (pkg : Pkg.t) :
  add_feature_packages features pkg
  = if no_prototype_key features then Normal (merged features pkg)
    else Throw (TypeError "forEach").
Proof.
  revert pkg. induction features as [|f rest IH]; intros pkg.
  - now destruct pkg.
  - simpl. unfold merged, selected_packages, selected_devPackages. simpl.
    destruct (FEATURES_get f) as [config| |]; simpl.
    + rewrite IH. destruct (no_prototype_key rest); [|reflexivity].
      f_equal. unfold merged, add_packages, Pkg.with_dependencies,
        Pkg.with_devDependencies. simpl.
      now rewrite !set_all_app.
    + reflexivity.
    + apply IH.
Qed.

Lemma generatePackageJson_spec name features packageManager stateLibs :
  generatePackageJson name features packageManager stateLibs
  = if no_prototype_key features
    then Normal (manifest name features packageManager stateLibs)
    else Throw (TypeError "forEach").
Proof.
  unfold generatePackageJson. rewrite add_feature_packages_spec.
  now destruct (no_prototype_key features).
Qed.

Lemma catalog_key_Own (f : string) :
  is_catalog_key f = true -> exists config, FEATURES_get f = Own config.
Proof.
  unfold is_catalog_key, Obj.has, FEATURES_get.
  destruct (Obj.get f FEATURES) as [config|]; [|discriminate].
  intros _. now exists config.
Qed.

Lemma catalog_keys_no_prototype_key (features : list string) :
  forallb is_catalog_key features = true -> no_prototype_key features = true.
Proof.
  unfold no_prototype_key. rewrite !forallb_forall. intros H f Hf.
  destruct (catalog_key_Own f (H f Hf)) as [config ->]. reflexivity.
Qed.

(** A selection of catalog keys always composes. *)
Lemma generatePackageJson_total name features packageManager stateLibs :
  forallb is_catalog_key features = true ->
  generatePackageJson name features packageManager stateLibs
  = Normal (manifest name features packageManager stateLibs).
Proof.
  intros H. rewrite generatePackageJson_spec.
  now rewrite catalog_keys_no_prototype_key.
Qed.

(** The members of the composed manifest, one at a time. *)

Ltac case_conditionals :=
  repeat match goal with
         | |- context [if ?b then _ else _] => destruct b
         end.

Lemma manifest_pnpm name features packageManager stateLibs :
  Pkg.pnpm (manifest name features packageManager stateLibs)
  = if String.eqb packageManager "pnpm" then Some pnpm_overrides else None.
Proof.
  unfold manifest, add_pnpm, add_quality, add_testing_scripts,
    add_i18n_scripts, add_state_libs.
  case_conditionals; reflexivity.
Qed.

Lemma manifest_dependencies name features packageManager stateLibs :
  Pkg.dependencies (manifest name features packageManager stateLibs)
  = state_dependencies features (or_default stateLibs ["jotai"])
      (Obj.set_all (selected_packages features) "latest"
         (Pkg.dependencies (base_package name))).
Proof.
  unfold manifest, add_pnpm, add_quality, add_testing_scripts,
    add_i18n_scripts, add_state_libs, state_dependencies.
  case_conditionals; reflexivity.
Qed.

Lemma manifest_devDependencies name features packageManager stateLibs :
  Pkg.devDependencies (manifest name features packageManager stateLibs)
  = Obj.set_all (selected_devPackages features) "latest"
      (Pkg.devDependencies (base_package name)).
Proof.
  unfold manifest, add_pnpm, add_quality, add_testing_scripts,
    add_i18n_scripts, add_state_libs.
  case_conditionals; reflexivity.
Qed.

Lemma manifest_scripts name features packageManager stateLibs :
  Pkg.scripts (manifest name features packageManager stateLibs)
  = scripts_of (Str.includes features "i18n") (Str.includes features "testing")
      (Str.includes features "quality") packageManager.
Proof.
  unfold manifest, add_pnpm, add_quality, add_testing_scripts,
    add_i18n_scripts, add_state_libs, scripts_of.
  case_conditionals; reflexivity.
Qed.

Lemma manifest_lint_staged name features packageManager stateLibs :
  Pkg.lint_staged (manifest name features packageManager stateLibs)
  = if Str.includes features "quality"
    then Some [("*.{js,jsx,ts,tsx}",
                [pnpm_prefix packageManager +:+ "biome check src"])]
    else None.
Proof.
  unfold manifest, add_pnpm, add_quality, add_testing_scripts,
    add_i18n_scripts, add_state_libs.
  case_conditionals; reflexivity.
Qed.

Lemma manifest_fixed_members name features packageManager stateLibs :
  let p := manifest name features packageManager stateLibs in
  Pkg.name p = name /\ Pkg.private p = true /\ Pkg.sideEffects p = false
  /\ Pkg.type p = "module".
Proof.
  unfold manifest, add_pnpm, add_quality, add_testing_scripts,
    add_i18n_scripts, add_state_libs.
  case_conditionals; repeat split.
Qed.

(** A manifest is determined by its members. *)
Lemma pkg_ext (p q : Pkg.t) :
  Pkg.name p = Pkg.name q -> Pkg.private p = Pkg.private q ->
  Pkg.sideEffects p = Pkg.sideEffects q -> Pkg.type p = Pkg.type q ->
  Pkg.scripts p = Pkg.scripts q ->
  Pkg.dependencies p = Pkg.dependencies q ->
  Pkg.devDependencies p = Pkg.devDependencies q ->
  Pkg.lint_staged p = Pkg.lint_staged q -> Pkg.pnpm p = Pkg.pnpm q ->
  p = q.
Proof. destruct p, q; simpl; intros; now subst. Qed.

(** ** The manifest and the selected keys *)

Lemma includes_insert (before after : list string) (key x : string) :
  Str.includes (before ++ key :: after) x
  = Str.includes (before ++ after) x || String.eqb x key.
Proof.
  rewrite !includes_app. unfold Str.includes at 2. simpl.
  fold (Str.includes after x).
  destruct (Str.includes before x), (String.eqb x key), (Str.includes after x);
    reflexivity.
Qed.

Lemma no_prototype_key_insert (before after : list string) (key : string) :
  no_prototype_key (before ++ key :: after)
  = no_prototype_key (before ++ after)
    && match FEATURES_get key with Inherited _ => false | _ => true end.
Proof.
  unfold no_prototype_key. rewrite !forallb_app. simpl.
  destruct (forallb _ before), (FEATURES_get key), (forallb _ after);
    reflexivity.
Qed.

Lemma In_selected_packages (features : list string) (x : string) :
  In x (selected_packages features)
  <-> exists f config,
        In f features /\ FEATURES_get f = Own config
        /\ In x (Feature.packages config).
Proof.
  unfold selected_packages. rewrite in_flat_map. split.
  - intros [f [Hf Hx]]. destruct (FEATURES_get f) as [config| |] eqn:E;
      try contradiction. now exists f, config.
  - intros [f [config [Hf [E Hx]]]]. exists f. now rewrite E.
Qed.

Lemma In_selected_devPackages (features : list string) (x : string) :
  In x (selected_devPackages features)
  <-> exists f config,
        In f features /\ FEATURES_get f = Own config
        /\ In x (Feature.devPackages config).
Proof.
  unfold selected_devPackages. rewrite in_flat_map. split.
  - intros [f [Hf Hx]]. destruct (FEATURES_get f) as [config| |] eqn:E;
      try contradiction. now exists f, config.
  - intros [f [config [Hf [E Hx]]]]. exists f. now rewrite E.
Qed.

(** The manifest reads the selection through four membership tests and
    the two package lists. *)
Lemma manifest_congruence name features features' packageManager stateLibs :
  Str.includes features "state" = Str.includes features' "state" ->
  Str.includes features "i18n" = Str.includes features' "i18n" ->
  Str.includes features "testing" = Str.includes features' "testing" ->
  Str.includes features "quality" = Str.includes features' "quality" ->
  selected_packages features = selected_packages features' ->
  selected_devPackages features = selected_devPackages features' ->
  manifest name features packageManager stateLibs
  = manifest name features' packageManager stateLibs.
Proof.
  intros Hs Hi Ht Hq Hp Hd.
  unfold manifest, add_quality, add_testing_scripts, add_i18n_scripts,
    add_state_libs, merged.
  now rewrite Hs, Hi, Ht, Hq, Hp, Hd.
Qed.

Lemma undefined_key_not_tested (key x : string) :
  FEATURES_get key = Undefined -> is_catalog_key x = true ->
  String.eqb x key = false.
Proof.
  intros Hkey Hx. destruct (String.eqb_spec x key) as [->|]; [|reflexivity].
  destruct (catalog_key_Own key Hx) as [config E]. congruence.
Qed.

(** C1 (amended): a key of the selection that is neither a catalog key nor
    the name of a member of [Object.prototype] is skipped by the guard
    [if (featureConfig)]: the composition returns the very manifest it
    returns for the selection without that key, wherever the key stands,
    and raises no error for it. *)
Theorem unknown_feature_key_is_skipped
    name before key after packageManager stateLibs :
  FEATURES_get key = Undefined ->
  generatePackageJson name (before ++ key :: after) packageManager stateLibs
  = generatePackageJson name (before ++ after) packageManager stateLibs.
Proof.
  intros Hkey. rewrite !generatePackageJson_spec.
  rewrite no_prototype_key_insert, Hkey, andb_true_r.
  destruct (no_prototype_key (before ++ after)); [|reflexivity].
  f_equal. apply manifest_congruence;
    try (rewrite includes_insert, (undefined_key_not_tested key);
         [apply orb_false_r | assumption | reflexivity]).
  - unfold selected_packages. rewrite !flat_map_app. simpl. now rewrite Hkey.
  - unfold selected_devPackages. rewrite !flat_map_app. simpl. now rewrite Hkey.
Qed.

Lemma unknown_feature_key_is_skipped_witness :
  FEATURES_get "bogus" = Undefined
  /\ generatePackageJson "demo" (["ui"] ++ "bogus" :: ["quality"]) "pnpm" None
     = generatePackageJson "demo" (["ui"] ++ ["quality"]) "pnpm" None.
Proof.
  split; [reflexivity|].
  apply (unknown_feature_key_is_skipped "demo" ["ui"] "bogus" ["quality"] "pnpm" None).
  reflexivity.
Defined.

(** C5: for every selection of catalog keys the manifest is composed, and
    it carries the [pnpm] member with the version-pin block exactly when
    the package manager is pnpm, whatever the features. The block is the
    one member [overrides], which pins each of seven framework
    sub-packages to the exact version 1.121.0; in [package.json] it is the
    last member, under the key [pnpm]. For any other package manager the
    manifest has no such member. *)
Theorem pnpm_overrides_iff_pnpm name features packageManager stateLibs :
  forallb is_catalog_key features = true ->
  exists pkg,
    generatePackageJson name features packageManager stateLibs = Normal pkg
    /\ (Pkg.pnpm pkg
        = Some [("overrides",
                 [("@tanstack/react-start-server", "1.121.0");
                  ("@tanstack/start-server-core", "1.121.0");
                  ("@tanstack/start-plugin-core", "1.121.0");
                  ("@tanstack/react-start-plugin", "1.121.0");
                  ("@tanstack/router-plugin", "1.121.0");
                  ("@tanstack/router-generator", "1.121.0");
                  ("@tanstack/server-functions-plugin", "1.121.0")])]
        <-> packageManager = "pnpm")
    /\ (Pkg.pnpm pkg = None <-> packageManager <> "pnpm")
    /\ Obj.get "pnpm" (json_fields (Pkg.to_json pkg))
       = (if String.eqb packageManager "pnpm"
          then Some (Json.JObject
                 [("overrides",
                   Json.JObject
                     [("@tanstack/react-start-server", Json.JString "1.121.0");
                      ("@tanstack/start-server-core", Json.JString "1.121.0");
                      ("@tanstack/start-plugin-core", Json.JString "1.121.0");
                      ("@tanstack/react-start-plugin", Json.JString "1.121.0");
                      ("@tanstack/router-plugin", Json.JString "1.121.0");
                      ("@tanstack/router-generator", Json.JString "1.121.0");
                      ("@tanstack/server-functions-plugin",
                       Json.JString "1.121.0")])])
          else None).
Proof.
  intros Hkeys. exists (manifest name features packageManager stateLibs).
  split; [now apply generatePackageJson_total|].
  pose proof (manifest_pnpm name features packageManager stateLibs) as Hp.
  pose proof (manifest_lint_staged name features packageManager stateLibs) as Hl.
  repeat split.
  - rewrite Hp. destruct (String.eqb_spec packageManager "pnpm"); [auto | discriminate].
  - intros ->. now rewrite Hp.
  - rewrite Hp. destruct (String.eqb_spec packageManager "pnpm"); [discriminate | auto].
  - intros Hne. rewrite Hp.
    destruct (String.eqb_spec packageManager "pnpm"); [contradiction | reflexivity].
  - unfold Pkg.to_json, json_fields. rewrite Hp, Hl.
    destruct (Str.includes features "quality"),
      (String.eqb packageManager "pnpm"); reflexivity.
Qed.

Lemma pnpm_overrides_iff_pnpm_witness :
  forallb is_catalog_key ["ui"; "quality"] = true
  /\ exists pkg,
       generatePackageJson "demo" ["ui"; "quality"] "pnpm" None = Normal pkg
       /\ Pkg.pnpm pkg
          = Some [("overrides",
                   [("@tanstack/react-start-server", "1.121.0");
                    ("@tanstack/start-server-core", "1.121.0");
                    ("@tanstack/start-plugin-core", "1.121.0");
                    ("@tanstack/react-start-plugin", "1.121.0");
                    ("@tanstack/router-plugin", "1.121.0");
                    ("@tanstack/router-generator", "1.121.0");
                    ("@tanstack/server-functions-plugin", "1.121.0")])].
Proof.
  split; [reflexivity|].
  destruct (pnpm_overrides_iff_pnpm "demo" ["ui"; "quality"] "pnpm" None
              eq_refl) as [pkg [Hpkg [Hblock _]]].
  exists pkg. split; [exact Hpkg | now apply Hblock].
Defined.

(** ** Which keys an object has *)

Lemma has_set {V : Type} (k k' : string) (v : V) (o : Obj.t V) :
  Obj.has k' (Obj.set k v o) = String.eqb k' k || Obj.has k' o.
Proof.
  unfold Obj.has. rewrite get_set. now destruct (String.eqb k' k).
Qed.

Lemma has_set_all {V : Type} (k : string) (ks : list string) (v : V)
    (o : Obj.t V) :
  Obj.has k (Obj.set_all ks v o) = Str.includes ks k || Obj.has k o.
Proof.
  unfold Obj.has. rewrite get_set_all. now destruct (Str.includes ks k).
Qed.

Lemma has_state_dependencies k features stateLibs deps :
  Obj.has k (state_dependencies features stateLibs deps)
  = Str.includes features "state"
    && (Str.includes stateLibs "jotai" && String.eqb k "jotai"
        || Str.includes stateLibs "zustand" && String.eqb k "zustand")
    || Obj.has k deps.
Proof.
  unfold state_dependencies.
  destruct (Str.includes features "state"),
    (Str.includes stateLibs "jotai"), (Str.includes stateLibs "zustand");
    rewrite ?has_set; btauto.
Qed.

Lemma has_scripts_of k i18n testing quality packageManager :
  Obj.has k (scripts_of i18n testing quality packageManager)
  = Obj.has k (Pkg.scripts (base_package ""))
    || i18n && String.eqb k "machine-translate"
    || testing && (String.eqb k "test" || String.eqb k "test:watch"
                   || String.eqb k "test:ui")
    || quality && (String.eqb k "lint" || String.eqb k "lint:fix"
                   || String.eqb k "prepare").
Proof.
  unfold scripts_of. destruct i18n, testing, quality;
    rewrite ?has_set; btauto.
Qed.

Lemma keeps_entries_has (o o' : Obj.t string) :
  (forall k, Obj.has k o = true -> Obj.has k o' = true) -> keeps_entries o o'.
Proof.
  intros H k v Hk. apply has_get, H, has_get. now exists v.
Qed.

Lemma bool_above (x y : bool) : y = y || x -> x = true -> y = true.
Proof. intros -> ->. apply orb_true_r. Qed.

Lemma selected_packages_insert before key after :
  selected_packages (before ++ key :: after)
  = selected_packages before
    ++ selected_packages [key] ++ selected_packages after.
Proof.
  unfold selected_packages. rewrite flat_map_app. simpl.
  now rewrite app_nil_r.
Qed.

Lemma selected_devPackages_insert before key after :
  selected_devPackages (before ++ key :: after)
  = selected_devPackages before
    ++ selected_devPackages [key] ++ selected_devPackages after.
Proof.
  unfold selected_devPackages. rewrite flat_map_app. simpl.
  now rewrite app_nil_r.
Qed.

Lemma selected_packages_app xs ys :
  selected_packages (xs ++ ys) = selected_packages xs ++ selected_packages ys.
Proof. apply flat_map_app. Qed.

Lemma selected_devPackages_app xs ys :
  selected_devPackages (xs ++ ys)
  = selected_devPackages xs ++ selected_devPackages ys.
Proof. apply flat_map_app. Qed.

(** C9: adding a catalog key to a selection, at any position, removes no
    entry of the composed manifest: the larger selection composes as well,
    and every key of [dependencies], [devDependencies] and [scripts] of the
    smaller manifest is a key of the larger one. *)
Theorem adding_a_feature_keeps_entries
    name before key after packageManager stateLibs pkg :
  is_catalog_key key = true ->
  generatePackageJson name (before ++ after) packageManager stateLibs
  = Normal pkg ->
  exists pkg',
    generatePackageJson name (before ++ key :: after) packageManager stateLibs
    = Normal pkg'
    /\ keeps_entries (Pkg.dependencies pkg) (Pkg.dependencies pkg')
    /\ keeps_entries (Pkg.devDependencies pkg) (Pkg.devDependencies pkg')
    /\ keeps_entries (Pkg.scripts pkg) (Pkg.scripts pkg').
Proof.
  intros Hkey Hsmall. rewrite generatePackageJson_spec in Hsmall.
  destruct (no_prototype_key (before ++ after)) eqn:Hnp; [|discriminate].
  injection Hsmall as <-.
  exists (manifest name (before ++ key :: after) packageManager stateLibs).
  split.
  - rewrite generatePackageJson_spec, no_prototype_key_insert, Hnp.
    destruct (catalog_key_Own key Hkey) as [config ->]. reflexivity.
  - repeat split; apply keeps_entries_has; intros k.
    + rewrite !manifest_dependencies, !has_state_dependencies, !has_set_all.
      rewrite includes_insert.
      rewrite selected_packages_insert, selected_packages_app.
      rewrite !includes_app.
      apply bool_above. btauto.
    + rewrite !manifest_devDependencies, !has_set_all.
      rewrite selected_devPackages_insert, selected_devPackages_app.
      rewrite !includes_app.
      apply bool_above. btauto.
    + rewrite !manifest_scripts, !has_scripts_of, !includes_insert.
      apply bool_above. btauto.
Qed.

Lemma adding_a_feature_keeps_entries_witness :
  is_catalog_key "testing" = true
  /\ generatePackageJson "demo" (["ui"] ++ ["quality"]) "npm" None
     = Normal (manifest "demo" ["ui"; "quality"] "npm" None)
  /\ exists pkg',
       generatePackageJson "demo" (["ui"] ++ "testing" :: ["quality"]) "npm" None
       = Normal pkg'
       /\ keeps_entries
            (Pkg.dependencies (manifest "demo" ["ui"; "quality"] "npm" None))
            (Pkg.dependencies pkg')
       /\ keeps_entries
            (Pkg.devDependencies (manifest "demo" ["ui"; "quality"] "npm" None))
            (Pkg.devDependencies pkg')
       /\ keeps_entries
            (Pkg.scripts (manifest "demo" ["ui"; "quality"] "npm" None))
            (Pkg.scripts pkg').
Proof.
  split; [reflexivity|]. split; [reflexivity|].
  apply (adding_a_feature_keeps_entries "demo" ["ui"] "testing" ["quality"]
           "npm" None); reflexivity.
Defined.

(** ** Selections that differ in the order of their keys *)

Lemma forallb_Permutation {A : Type} (f : A -> bool) (l l' : list A) :
  Permutation l l' -> forallb f l = forallb f l'.
Proof.
  induction 1 as [|x l l' _ IH|x y l|l l' l'' _ IH1 _ IH2]; simpl.
  - reflexivity.
  - now rewrite IH.
  - now destruct (f x), (f y).
  - congruence.
Qed.

Lemma selected_packages_Permutation features features' :
  Permutation features features' ->
  forall x, Str.includes (selected_packages features) x
            = Str.includes (selected_packages features') x.
Proof.
  intros Hperm. apply includes_ext. intros x.
  rewrite !In_selected_packages.
  split; intros [f [config [Hf H]]]; exists f, config; split; try assumption.
  - now apply (Permutation_in _ Hperm).
  - now apply (Permutation_in _ (Permutation_sym Hperm)).
Qed.

Lemma selected_devPackages_Permutation features features' :
  Permutation features features' ->
  forall x, Str.includes (selected_devPackages features) x
            = Str.includes (selected_devPackages features') x.
Proof.
  intros Hperm. apply includes_ext. intros x.
  rewrite !In_selected_devPackages.
  split; intros [f [config [Hf H]]]; exists f, config; split; try assumption.
  - now apply (Permutation_in _ Hperm).
  - now apply (Permutation_in _ (Permutation_sym Hperm)).
Qed.

Lemma get_state_dependencies k features stateLibs deps :
  Obj.get k (state_dependencies features stateLibs deps)
  = if Str.includes features "state"
       && (Str.includes stateLibs "zustand" && String.eqb k "zustand"
           || Str.includes stateLibs "jotai" && String.eqb k "jotai")
    then Some "latest" else Obj.get k deps.
Proof.
  unfold state_dependencies.
  destruct (Str.includes features "state"),
    (Str.includes stateLibs "jotai"), (Str.includes stateLibs "zustand");
    rewrite ?get_set; simpl;
    destruct (String.eqb k "zustand"), (String.eqb k "jotai"); reflexivity.
Qed.

Lemma NoDup_keys_state_dependencies features stateLibs deps :
  NoDup (Obj.keys deps) ->
  NoDup (Obj.keys (state_dependencies features stateLibs deps)).
Proof.
  intros H. unfold state_dependencies.
  destruct (Str.includes features "state"),
    (Str.includes stateLibs "jotai"), (Str.includes stateLibs "zustand");
    repeat apply NoDup_keys_set; assumption.
Qed.

Lemma NoDup_base_dependencies name :
  NoDup (Obj.keys (Pkg.dependencies (base_package name))).
Proof.
  simpl. repeat (constructor; [simpl; intuition discriminate|]). constructor.
Qed.

Lemma NoDup_base_devDependencies name :
  NoDup (Obj.keys (Pkg.devDependencies (base_package name))).
Proof.
  simpl. repeat (constructor; [simpl; intuition discriminate|]). constructor.
Qed.

Lemma manifest_Permutation name features features' packageManager stateLibs :
  Permutation features features' ->
  same_up_to_dependency_order
    (manifest name features packageManager stateLibs)
    (manifest name features' packageManager stateLibs).
Proof.
  intros Hperm.
  pose proof (includes_perm _ _ Hperm) as Hinc.
  assert (Hdeps : forall k,
    Obj.get k (Pkg.dependencies (manifest name features packageManager stateLibs))
    = Obj.get k (Pkg.dependencies (manifest name features' packageManager stateLibs))).
  { intros k. rewrite !manifest_dependencies, !get_state_dependencies,
      !get_set_all.
    now rewrite (Hinc "state"), (selected_packages_Permutation _ _ Hperm k). }
  assert (Hdev : forall k,
    Obj.get k (Pkg.devDependencies (manifest name features packageManager stateLibs))
    = Obj.get k (Pkg.devDependencies (manifest name features' packageManager stateLibs))).
  { intros k. rewrite !manifest_devDependencies, !get_set_all.
    now rewrite (selected_devPackages_Permutation _ _ Hperm k). }
  destruct (manifest_fixed_members name features packageManager stateLibs)
    as [Hn [Hp [Hs Ht]]].
  destruct (manifest_fixed_members name features' packageManager stateLibs)
    as [Hn' [Hp' [Hs' Ht']]].
  unfold same_up_to_dependency_order.
  rewrite Hn, Hn', Hp, Hp', Hs, Hs', Ht, Ht'.
  rewrite !manifest_scripts, !manifest_lint_staged, !manifest_pnpm.
  rewrite (Hinc "i18n"), (Hinc "testing"), (Hinc "quality").
  repeat split; try assumption.
  - apply same_lookups_Permutation; [| |assumption];
      rewrite manifest_dependencies;
      apply NoDup_keys_state_dependencies, NoDup_keys_set_all,
        NoDup_base_dependencies.
  - apply same_lookups_Permutation; [| |assumption];
      rewrite manifest_devDependencies;
      apply NoDup_keys_set_all, NoDup_base_devDependencies.
Qed.

(** C3 (amended): two selections that list the same keys in a different
    order compose alike: either both hit the same error, or both return a
    manifest, and the two manifests have the same name, flags, scripts and
    optional blocks and the same [dependencies] and [devDependencies]
    entries, listed in a possibly different order (the loop follows the
    order of the selection). For one and the same selection the
    composition returns one and the same result. *)
Theorem manifest_up_to_selection_order
    name features features' packageManager stateLibs :
  Permutation features features' ->
  match generatePackageJson name features packageManager stateLibs,
        generatePackageJson name features' packageManager stateLibs with
  | Normal p, Normal q => same_up_to_dependency_order p q
  | Throw e, Throw e' => e = e'
  | _, _ => False
  end
  /\ (features = features' ->
      generatePackageJson name features packageManager stateLibs
      = generatePackageJson name features' packageManager stateLibs).
Proof.
  intros Hperm. split; [|now intros ->].
  rewrite !generatePackageJson_spec.
  unfold no_prototype_key. rewrite (forallb_Permutation _ _ _ Hperm).
  destruct (forallb _ features'); [|reflexivity].
  now apply manifest_Permutation.
Qed.

Lemma manifest_up_to_selection_order_witness :
  Permutation ["i18n"; "auth"] ["auth"; "i18n"]
  /\ match generatePackageJson "demo" ["i18n"; "auth"] "npm" None,
           generatePackageJson "demo" ["auth"; "i18n"] "npm" None with
     | Normal p, Normal q => same_up_to_dependency_order p q
     | Throw e, Throw e' => e = e'
     | _, _ => False
     end.
Proof.
  split; [apply perm_swap|].
  apply (manifest_up_to_selection_order "demo" ["i18n"; "auth"] ["auth"; "i18n"]
           "npm" None).
  apply perm_swap.
Defined.

(** C3 fails as stated: listing [auth] before [i18n] instead of after it
    yields a manifest whose text differs, the [dependencies] following the
    order of the selection and not the order of the catalog. *)
Lemma selection_order_changes_manifest_text :
  Permutation ["i18n"; "auth"] ["auth"; "i18n"]
  /\ exists p q,
       generatePackageJson "demo" ["i18n"; "auth"] "npm" None = Normal p
       /\ generatePackageJson "demo" ["auth"; "i18n"] "npm" None = Normal q
       /\ Json.stringify (Pkg.to_json p) <> Json.stringify (Pkg.to_json q)
       /\ skipn 6 (Obj.keys (Pkg.dependencies p))
          = ["@inlang/cli"; "@inlang/paraglide-js"; "cookie-es"]
       /\ skipn 6 (Obj.keys (Pkg.dependencies q))
          = ["cookie-es"; "@inlang/cli"; "@inlang/paraglide-js"].
Proof.
  split; [apply perm_swap|].
  eexists. eexists. split; [reflexivity|]. split; [reflexivity|].
  split; [|split; reflexivity].
  apply String.eqb_neq. vm_compute. reflexivity.
Qed.

(** ** Strings and paths *)

Lemma length_append (s t : string) :
  String.length (s +:+ t) = String.length s + String.length t.
Proof. induction s as [|c s IH]; simpl; [reflexivity | now rewrite IH]. Qed.

Lemma append_assoc (s t u : string) : (s +:+ t) +:+ u = s +:+ t +:+ u.
Proof. induction s as [|c s IH]; simpl; [reflexivity | now rewrite IH]. Qed.

Lemma append_inj_l (s s' t : string) : s +:+ t = s' +:+ t -> s = s'.
Proof.
  revert s'. induction s as [|c s IH]; intros [|c' s'] H; simpl in H.
  - reflexivity.
  - apply (f_equal String.length) in H. simpl in H.
    rewrite length_append in H. lia.
  - apply (f_equal String.length) in H. simpl in H.
    rewrite length_append in H. lia.
  - injection H as -> H. f_equal. now apply IH.
Qed.

Lemma split_slash_aux_no_slash (acc s : string) :
  Str.no_slash s = true -> Str.split_slash_aux acc s = [acc +:+ s].
Proof.
  revert acc. induction s as [|c s IH]; intros acc H; simpl in *.
  - f_equal. induction acc as [|a acc IHacc]; simpl; [reflexivity|].
    now rewrite <- IHacc.
  - apply andb_prop in H. destruct H as [Hc Hs].
    destruct (Ascii.eqb c "/"); [discriminate|].
    rewrite IH by assumption. now rewrite append_assoc.
Qed.

Lemma no_slash_append (s t : string) :
  Str.no_slash (s +:+ t) = Str.no_slash s && Str.no_slash t.
Proof.
  induction s as [|c s IH]; simpl; [reflexivity|].
  rewrite IH. now rewrite andb_assoc.
Qed.

Lemma split_slash_no_slash (s : string) :
  Str.no_slash s = true -> Str.split_slash s = [s].
Proof. intros H. unfold Str.split_slash. now rewrite split_slash_aux_no_slash. Qed.

Lemma plain_file_name (stem : string) : plain (stem +:+ ".json") = true.
Proof.
  unfold plain.
  assert (H : forall t, String.length t < 5 ->
                        String.eqb (stem +:+ ".json") t = false).
  { intros t Ht. apply String.eqb_neq. intros E.
    apply (f_equal String.length) in E. rewrite length_append in E.
    simpl in E. lia. }
  rewrite !H by (simpl; lia). reflexivity.
Qed.

Lemma join_plain (base : Path.t) (components : list string) :
  forallb plain components = true ->
  fold_left Path.step components base = base ++ components.
Proof.
  revert base. induction components as [|c cs IH]; intros base H; simpl in *.
  - now rewrite app_nil_r.
  - apply andb_prop in H. destruct H as [Hc Hcs].
    assert (Hstep : Path.step base c = base ++ [c]).
    { unfold plain in Hc. unfold Path.step.
      destruct (String.eqb c ""), (String.eqb c "."), (String.eqb c "..");
        try discriminate. reflexivity. }
    rewrite Hstep, IH by assumption. now rewrite <- app_assoc.
Qed.

Lemma join_simple (base : Path.t) (rel : string) :
  forallb plain (Str.split_slash rel) = true ->
  Path.join base rel = base ++ Str.split_slash rel.
Proof. apply join_plain. Qed.

(** The file of a locale code without a separator lies in the directory
    it is joined to. *)
Lemma join_file_name (dir : Path.t) (stem : string) :
  Str.no_slash stem = true ->
  Path.join dir (stem +:+ ".json") = dir ++ [stem +:+ ".json"].
Proof.
  intros H. rewrite join_simple.
  - rewrite split_slash_no_slash; [reflexivity|].
    now rewrite no_slash_append, H.
  - rewrite split_slash_no_slash by (now rewrite no_slash_append, H).
    simpl. now rewrite plain_file_name.
Qed.

Lemma path_eqb_eq (p q : Path.t) : path_eqb p q = true <-> p = q.
Proof.
  revert q. induction p as [|a p IH]; intros [|b q]; simpl;
    try (split; [discriminate | discriminate]); [tauto|].
  rewrite andb_true_iff, String.eqb_eq, IH. split.
  - now intros [-> ->].
  - now intros [= -> ->].
Qed.

Lemma path_eqb_refl (p : Path.t) : path_eqb p p = true.
Proof. now apply path_eqb_eq. Qed.

Lemma path_eqb_app (root p q : Path.t) :
  path_eqb (root ++ p) (root ++ q) = path_eqb p q.
Proof.
  induction root as [|a root IH]; simpl; [reflexivity|].
  now rewrite String.eqb_refl.
Qed.

(** ** Logs *)

Lemma log_of_bind {A B : Type} (m : IO A) (k : A -> IO B) :
  log_of (bind m k)
  = log_of m ++ match outcome m with
                | Normal a => log_of (k a)
                | _ => []
                end.
Proof.
  destruct m as [log [a|e|c]]; simpl; try now rewrite app_nil_r.
  now destruct (k a).
Qed.



Lemma writes_to_under (root file : Path.t) (log : list fs_call) :
  writes_to (root ++ file) (map (under root) log) = writes_to file log.
Proof.
  induction log as [|[dir|f data] log IH]; simpl; try assumption.
  - reflexivity.
  - rewrite path_eqb_app. now rewrite IH.
Qed.

Lemma written_files_app (log log' : list fs_call) :
  written_files (log ++ log') = written_files log ++ written_files log'.
Proof.
  induction log as [|[dir|f data] log IH]; simpl; try assumption.
  - reflexivity.
  - now rewrite IH.
Qed.

Lemma written_files_under (root : Path.t) (log : list fs_call) :
  written_files (map (under root) log) = map (app root) (written_files log).
Proof.
  induction log as [|[dir|f data] log IH]; simpl; try assumption.
  - reflexivity.
  - now rewrite IH.
Qed.


(** ** The emitters, one at a time

    Outside the locale files every path an emitter joins to [root] is a
    literal without [.] or [..] components, so its log under [root] is its
    log under the empty path, moved below [root]. *)

Ltac split_literals :=
  repeat match goal with
         | |- context [Str.split_slash (String ?c ?s)] =>
             let v := eval vm_compute in (Str.split_slash (String c s)) in
             change (Str.split_slash (String c s)) with v
         end.

Ltac run_io :=
  cbn [bind ret lift when forEach mkdirSync writeFileSync log_of outcome
       fst snd app map under or_default].

Ltac relocate :=
  run_io; rewrite ?join_simple by reflexivity; split_literals; run_io;
  rewrite <- ?app_assoc; cbn [app]; try reflexivity.

Lemma createBaseStructure_outcome root :
  outcome (createBaseStructure root) = Normal tt.
Proof. reflexivity. Qed.

Lemma createBaseStructure_log root :
  log_of (createBaseStructure root)
  = map (under root) (log_of (createBaseStructure [])).
Proof. unfold createBaseStructure. relocate. Qed.

Lemma createUISetup_outcome root : outcome (createUISetup root) = Normal tt.
Proof. reflexivity. Qed.

Lemma createUISetup_log root :
  log_of (createUISetup root) = map (under root) (log_of (createUISetup [])).
Proof. unfold createUISetup. relocate. Qed.

Lemma createStateSetup_outcome root stateLibs :
  outcome (createStateSetup root stateLibs) = Normal tt.
Proof.
  unfold createStateSetup.
  destruct (Str.includes (or_default stateLibs ["jotai"]) "jotai"),
    (Str.includes (or_default stateLibs ["jotai"]) "zustand"); reflexivity.
Qed.

Lemma createStateSetup_log root stateLibs :
  log_of (createStateSetup root stateLibs)
  = map (under root) (log_of (createStateSetup [] stateLibs)).
Proof.
  unfold createStateSetup.
  destruct (Str.includes (or_default stateLibs ["jotai"]) "jotai"),
    (Str.includes (or_default stateLibs ["jotai"]) "zustand"); relocate.
Qed.

Lemma createAuthSetup_outcome root : outcome (createAuthSetup root) = Normal tt.
Proof. reflexivity. Qed.

Lemma createAuthSetup_log root :
  log_of (createAuthSetup root) = map (under root) (log_of (createAuthSetup [])).
Proof. unfold createAuthSetup. relocate. Qed.

Lemma createTestingSetup_outcome root :
  outcome (createTestingSetup root) = Normal tt.
Proof. reflexivity. Qed.

Lemma createTestingSetup_log root :
  log_of (createTestingSetup root)
  = map (under root) (log_of (createTestingSetup [])).
Proof. unfold createTestingSetup. relocate. Qed.

Lemma createQualitySetup_outcome root :
  outcome (createQualitySetup root) = Normal tt.
Proof. reflexivity. Qed.

Lemma createQualitySetup_log root :
  log_of (createQualitySetup root)
  = map (under root) (log_of (createQualitySetup [])).
Proof. unfold createQualitySetup. relocate. Qed.

Lemma createConfigFiles_log root features :
  log_of (createConfigFiles root features)
  = map (under root) (log_of (createConfigFiles [] features)).
Proof.
  unfold createConfigFiles.
  destruct (Str.includes features "ui"), (Str.includes features "deploy");
    relocate.
Qed.

Lemma createConfigFiles_outcome root features :
  outcome (createConfigFiles root features)
  = if Str.includes features "deploy"
    then Throw (ReferenceError "projectName") else Normal tt.
Proof.
  unfold createConfigFiles.
  destruct (Str.includes features "ui"), (Str.includes features "deploy");
    reflexivity.
Qed.

Lemma createReadme_log root projectName features packageManager :
  log_of (createReadme root projectName features packageManager)
  = map (under root)
        (log_of (createReadme [] projectName features packageManager)).
Proof.
  unfold createReadme. destruct (feature_lines features); relocate.
Qed.

(** *** The locale files *)

Lemma forEach_writes {A : Type} (xs : list A) (file : A -> Path.t)
    (data : A -> string) :
  forEach xs (fun x => writeFileSync (file x) (data x))
  = (map (fun x => WriteFile (file x) (data x)) xs, Normal tt).
Proof.
  induction xs as [|x xs IH]; [reflexivity|].
  cbn [forEach]. rewrite IH. reflexivity.
Qed.

Lemma createI18nSetup_outcome root languages baseLocale :
  outcome (createI18nSetup root languages baseLocale) = Normal tt.
Proof. unfold createI18nSetup. rewrite forEach_writes. reflexivity. Qed.

Lemma createI18nSetup_log root languages baseLocale :
  forallb Str.no_slash languages = true ->
  log_of (createI18nSetup root languages baseLocale)
  = map (under root) (i18n_log languages baseLocale).
Proof.
  intros Hplain. unfold createI18nSetup, i18n_log.
  rewrite forEach_writes. run_io.
  rewrite !join_simple by reflexivity. split_literals.
  rewrite <- !app_assoc. cbn [app]. do 3 f_equal.
  rewrite map_map. apply map_ext_in. intros lang Hlang. cbn [under].
  rewrite forallb_forall in Hplain.
  rewrite join_file_name by now apply Hplain.
  unfold message_file. now rewrite <- app_assoc.
Qed.




(** ** The driver *)

Lemma bind_lift_Normal {A B : Type} (a : A) (k : A -> IO B) :
  bind (lift (Normal a)) k = k a.
Proof. unfold bind, lift. now destruct (k a). Qed.

Lemma log_of_seq {A B : Type} (m : IO A) (k : A -> IO B) (a : A) :
  outcome m = Normal a -> log_of (bind m k) = log_of m ++ log_of (k a).
Proof. intros H. now rewrite log_of_bind, H. Qed.


Lemma when_outcome (b : bool) (m : IO unit) :
  outcome m = Normal tt -> outcome (when b m) = Normal tt.
Proof. now destruct b. Qed.

Lemma when_log (b : bool) (m : IO unit) :
  log_of (when b m) = if b then log_of m else [].
Proof. now destruct b. Qed.


Lemma init_target_exists cwd existsSync a :
  existsSync (root_of cwd a) = true ->
  init cwd existsSync (Answered a) = ([], Exit 1).
Proof.
  intros H. unfold init. cbn [prompts]. rewrite bind_lift_Normal.
  unfold root_of in H. now rewrite H.
Qed.

Lemma init_composition_throws cwd existsSync a :
  existsSync (root_of cwd a) = false ->
  no_prototype_key (features_of a) = false ->
  init cwd existsSync (Answered a)
  = ([MkDir (root_of cwd a)], Throw (TypeError "forEach")).
Proof.
  intros Hex Hnp. unfold init. cbn [prompts]. rewrite bind_lift_Normal.
  unfold root_of in *. rewrite Hex.
  rewrite generatePackageJson_spec. unfold features_of in Hnp. rewrite Hnp.
  reflexivity.
Qed.

Ltac returns_normally :=
  first [ reflexivity
        | apply createBaseStructure_outcome
        | apply when_outcome;
          first [ apply createI18nSetup_outcome | apply createUISetup_outcome
                | apply createStateSetup_outcome | apply createAuthSetup_outcome
                | apply createTestingSetup_outcome
                | apply createQualitySetup_outcome ] ].

Ltac step_log := rewrite (log_of_seq _ _ tt) by returns_normally.

Lemma createReadme_outcome root projectName features packageManager :
  outcome (createReadme root projectName features packageManager)
  = match feature_lines features with
    | Normal _ => Normal tt
    | Throw e => Throw e
    | Exit code => Exit code
    end.
Proof. unfold createReadme. now destruct (feature_lines features). Qed.

(** The log of a run that reaches generation: the calls before the locale
    files, those of [createI18nSetup], and those after. *)
Lemma init_log cwd existsSync a :
  existsSync (root_of cwd a) = false ->
  no_prototype_key (features_of a) = true ->
  log_of (init cwd existsSync (Answered a))
  = map (under (root_of cwd a)) (log_before_i18n a)
    ++ (if Str.includes (features_of a) "i18n"
        then log_of (createI18nSetup (root_of cwd a) (languages_of a)
                       (baseLocale_of a))
        else [])
    ++ map (under (root_of cwd a)) (log_after_i18n a).
Proof.
  intros Hex Hnp. unfold init. cbn [prompts]. rewrite bind_lift_Normal.
  unfold root_of in *. rewrite Hex.
  rewrite generatePackageJson_spec.
  unfold log_before_i18n, log_after_i18n, log_after_config.
  unfold features_of, languages_of, baseLocale_of, stateLibs_of in *.
  rewrite Hnp.
  set (root := Path.join cwd (Answers.projectName a)).
  set (features := or_default (Answers.features a) []).
  step_log. rewrite bind_lift_Normal. do 8 step_log.
  rewrite !when_log.
  rewrite log_of_bind, createConfigFiles_outcome.
  rewrite createBaseStructure_log, createUISetup_log, createStateSetup_log,
    createAuthSetup_log, createTestingSetup_log, createQualitySetup_log,
    createConfigFiles_log.
  rewrite !map_app. cbn [map under mkdirSync writeFileSync log_of fst].
  rewrite join_simple by reflexivity. split_literals.
  rewrite app_nil_r.
  replace (map (under root) (if Str.includes features "deploy" then [] else
     log_of (createReadme [] (Answers.projectName a) features
               (Answers.packageManager a))
     ++ match feature_lines features with
        | Normal _ =>
            if Answers.initGit a then [WriteFile [".gitignore"] getGitignore]
            else []
        | _ => []
        end))
    with (match (if Str.includes features "deploy"
                 then Throw (ReferenceError "projectName") else Normal tt) with
          | Normal _ =>
              log_of (createReadme root (Answers.projectName a) features
                        (Answers.packageManager a);;
                      when (Answers.initGit a)
                        (writeFileSync (Path.join root ".gitignore") getGitignore))
          | _ => []
          end).
  - repeat match goal with
           | |- context [map (under root) (if ?b then ?x else [])] =>
               replace (map (under root) (if b then x else []))
                 with (if b then map (under root) x else [])
                 by now destruct b
           end.
    rewrite <- !app_assoc. reflexivity.
  - destruct (Str.includes features "deploy"); [reflexivity|].
    rewrite log_of_bind, createReadme_outcome, createReadme_log, map_app.
    f_equal.
    destruct (feature_lines features); try reflexivity.
    rewrite when_log. destruct (Answers.initGit a); [|reflexivity].
    cbn [map under writeFileSync log_of fst].
    rewrite join_simple by reflexivity. reflexivity.
Qed.


(** ** Runs that abort before generation *)

(** C7: a cancelled prompt session, and a session whose target directory
    already exists, end the process with exit status 1, with no call into
    the file system made. *)
Theorem aborted_runs_write_nothing cwd existsSync :
  main cwd existsSync Cancelled = ([], 1)
  /\ forall a,
       existsSync (root_of cwd a) = true ->
       main cwd existsSync (Answered a) = ([], 1).
Proof.
  split; [reflexivity|].
  intros a H. unfold main. now rewrite init_target_exists.
Qed.

Lemma aborted_runs_write_nothing_witness :
  occupied (root_of ["home"] (answers "pnpm" ["ui"; "quality"] None None true))
  = true
  /\ main ["home"] occupied Cancelled = ([], 1)
  /\ main ["home"] occupied
       (Answered (answers "pnpm" ["ui"; "quality"] None None true))
     = ([], 1).
Proof.
  split; [reflexivity|]. split.
  - apply (proj1 (aborted_runs_write_nothing ["home"] occupied)).
  - apply (proj2 (aborted_runs_write_nothing ["home"] occupied)). reflexivity.
Defined.

(** ** The deployment feature *)

Lemma createConfigFiles_deploy root features :
  Str.includes features "deploy" = true ->
  outcome (createConfigFiles root features)
  = Throw (ReferenceError "projectName")
  /\ writes_to (root ++ ["wrangler.json"])
       (log_of (createConfigFiles root features)) = []
  /\ writes_to (root ++ ["vite.config.ts"])
       (log_of (createConfigFiles root features))
     = [getViteConfig features].
Proof.
  intros Hdeploy.
  rewrite createConfigFiles_outcome, createConfigFiles_log, !writes_to_under,
    Hdeploy.
  unfold createConfigFiles. rewrite Hdeploy.
  destruct (Str.includes features "ui"); repeat split; reflexivity.
Qed.

(** C2, on the selection [deploy] (project [demo], npm, created in
    [/home]): [vite.config.ts] is written with the Cloudflare plugin
    imported and listed, but building the content of [wrangler.json] reads
    [projectName], which [createConfigFiles] does not bind; the run ends
    there with a ReferenceError and exit status 1, before [wrangler.json],
    [README.md] and [.gitignore] are written. The same holds of
    [createConfigFiles] on every selection that contains [deploy]. *)
Theorem deploy_selection_never_writes_wrangler :
  let session := Answered (answers "npm" ["deploy"] None None true) in
  let run := init ["home"] fresh session in
  outcome run = Throw (ReferenceError "projectName")
  /\ snd (main ["home"] fresh session) = 1
  /\ writes_to ["home"; "demo"; "wrangler.json"] (log_of run) = []
  /\ written_files (log_of run)
     = [ ["home"; "demo"; "package.json"];
         ["home"; "demo"; "src"; "client.tsx"];
         ["home"; "demo"; "src"; "server.ts"];
         ["home"; "demo"; "src"; "router.tsx"];
         ["home"; "demo"; "src"; "routes"; "__root.tsx"];
         ["home"; "demo"; "src"; "routes"; "index.tsx"];
         ["home"; "demo"; "src"; "styles"; "global.css"];
         ["home"; "demo"; "tsconfig.json"];
         ["home"; "demo"; "vite.config.ts"];
         ["home"; "demo"; ".env.example"] ]
  /\ writes_to ["home"; "demo"; "vite.config.ts"] (log_of run)
     = [getViteConfig ["deploy"]]
  /\ String.index 0 "import cloudflare from '@cloudflare/vite-plugin'"
       (getViteConfig ["deploy"]) = Some 150
  /\ String.index 0 "cloudflare()," (getViteConfig ["deploy"]) = Some 333
  /\ String.index 0 "cloudflare" (getViteConfig []) = None
  /\ wrangler_json = Throw (ReferenceError "projectName")
  /\ forall root features,
       Str.includes features "deploy" = true ->
       outcome (createConfigFiles root features)
       = Throw (ReferenceError "projectName")
       /\ writes_to (root ++ ["wrangler.json"])
            (log_of (createConfigFiles root features)) = [].
Proof.
  cbv zeta. do 9 (split; [vm_compute; reflexivity|]).
  intros root features Hdeploy.
  split; now apply createConfigFiles_deploy.
Qed.

(** ** The locale files of a run *)




(** The calls of a run after the locale files leave the message files
    alone, and so do those before. *)










(** ** The state libraries *)

Lemma selected_packages_in_catalog features x :
  In x (selected_packages features) -> In x catalog_packages.
Proof.
  rewrite In_selected_packages. intros [f [config [_ [Hget Hx]]]].
  unfold catalog_packages. apply in_flat_map. exists (f, config).
  split; [|assumption].
  unfold FEATURES_get in Hget.
  destruct (Obj.get f FEATURES) as [c|] eqn:E.
  - injection Hget as ->. now apply get_In.
  - destruct (Obj.get f Object_prototype); discriminate.
Qed.

Lemma selected_devPackages_in_catalog features x :
  In x (selected_devPackages features) -> In x catalog_devPackages.
Proof.
  rewrite In_selected_devPackages. intros [f [config [_ [Hget Hx]]]].
  unfold catalog_devPackages. apply in_flat_map. exists (f, config).
  split; [|assumption].
  unfold FEATURES_get in Hget.
  destruct (Obj.get f FEATURES) as [c|] eqn:E.
  - injection Hget as ->. now apply get_In.
  - destruct (Obj.get f Object_prototype); discriminate.
Qed.

Lemma not_selected features x :
  Str.includes catalog_packages x = false ->
  Str.includes (selected_packages features) x = false.
Proof.
  intros H. destruct (Str.includes (selected_packages features) x) eqn:E;
    [|reflexivity].
  apply includes_In, selected_packages_in_catalog, includes_In in E. congruence.
Qed.

Lemma not_selected_dev features x :
  Str.includes catalog_devPackages x = false ->
  Str.includes (selected_devPackages features) x = false.
Proof.
  intros H. destruct (Str.includes (selected_devPackages features) x) eqn:E;
    [|reflexivity].
  apply includes_In, selected_devPackages_in_catalog, includes_In in E.
  congruence.
Qed.












(** ** A key outside the catalog *)

(** C1 fails as stated: for the selection that holds the one key [bogus],
    which is no key of the catalog, [generatePackageJson] raises nothing
    and returns the manifest of the empty selection, and the run writes
    that manifest to [package.json], followed by the base scaffold and the
    configuration files. *)
Lemma unknown_feature_key_composes_and_writes :
  let session := Answered (answers "npm" ["bogus"] None None true) in
  let log := fst (main ["home"] fresh session) in
  is_catalog_key "bogus" = false
  /\ generatePackageJson "demo" ["bogus"] "npm" None
     = Normal (manifest "demo" [] "npm" None)
  /\ generatePackageJson "demo" ["bogus"] "npm" None
     = generatePackageJson "demo" [] "npm" None
  /\ writes_to ["home"; "demo"; "package.json"] log
     = [Json.stringify (Pkg.to_json (manifest "demo" [] "npm" None))]
  /\ written_files log
     = [ ["home"; "demo"; "package.json"];
         ["home"; "demo"; "src"; "client.tsx"];
         ["home"; "demo"; "src"; "server.ts"];
         ["home"; "demo"; "src"; "router.tsx"];
         ["home"; "demo"; "src"; "routes"; "__root.tsx"];
         ["home"; "demo"; "src"; "routes"; "index.tsx"];
         ["home"; "demo"; "src"; "styles"; "global.css"];
         ["home"; "demo"; "tsconfig.json"];
         ["home"; "demo"; "vite.config.ts"];
         ["home"; "demo"; ".env.example"] ].
Proof. cbv zeta. repeat split; vm_compute; reflexivity. Qed.

(** * Further properties of the composer *)

(** ** When [generatePackageJson] throws *)

Lemma FEATURES_get_Inherited f :
  (exists its_name, FEATURES_get f = Inherited its_name)
  <-> In f (Obj.keys Object_prototype).
Proof.
  unfold FEATURES_get. split.
  - intros [its_name H].
    destruct (Obj.get f FEATURES); [discriminate|].
    destruct (Obj.get f Object_prototype) eqn:E; [|discriminate].
    apply get_In in E. unfold Obj.keys. apply in_map_iff. now exists (f, o).
  - intros Hin.
    destruct (Obj.get f Object_prototype) as [its_name|] eqn:E.
    + assert (Hcat : Obj.get f FEATURES = None).
      { simpl in Hin.
        repeat (destruct Hin as [<-|Hin]; [reflexivity|]). contradiction. }
      rewrite Hcat. now exists its_name.
    + apply get_None_keys in E. contradiction.
Qed.

Lemma no_prototype_key_false features :
  no_prototype_key features = false
  <-> exists f, In f features /\ In f (Obj.keys Object_prototype).
Proof.
  unfold no_prototype_key. split.
  - intros H. induction features as [|f rest IH]; simpl in H; [discriminate|].
    destruct (FEATURES_get f) as [config|its_name|] eqn:E; simpl in H.
    + destruct (IH H) as [g [Hg Hp]]. exists g. split; [now right | assumption].
    + exists f. split; [now left|]. apply FEATURES_get_Inherited. now exists its_name.
    + destruct (IH H) as [g [Hg Hp]]. exists g. split; [now right | assumption].
  - intros [f [Hf Hp]]. apply FEATURES_get_Inherited in Hp.
    destruct Hp as [its_name Hp].
    destruct (forallb _ features) eqn:E; [|reflexivity].
    rewrite forallb_forall in E. specialize (E f Hf). now rewrite Hp in E.
Qed.

(** X1: [generatePackageJson] fails on exactly one kind of input: a list
    of features holding one of the twelve names of the members of
    [Object.prototype] ([constructor], [toString], ...), for which the
    lookup in [FEATURES] yields a value that passes the guard and has no
    [packages]; the failure is a TypeError. On every other list, keys
    outside the catalog included, it returns a manifest. *)
Theorem generatePackageJson_throws_on_prototype_names
    name features packageManager stateLibs :
  let result := generatePackageJson name features packageManager stateLibs in
  let prototype_name_selected :=
    exists f, In f features
              /\ In f ["constructor"; "__defineGetter__"; "__defineSetter__";
                       "hasOwnProperty"; "__lookupGetter__";
                       "__lookupSetter__"; "isPrototypeOf";
                       "propertyIsEnumerable"; "toString"; "valueOf";
                       "__proto__"; "toLocaleString"] in
  (result = Throw (TypeError "forEach") <-> prototype_name_selected)
  /\ ((exists pkg, result = Normal pkg) <-> ~ prototype_name_selected)
  /\ (forall e, result = Throw e -> e = TypeError "forEach")
  /\ (forall code, result <> Exit code).
Proof.
  cbv zeta. rewrite generatePackageJson_spec.
  change ["constructor"; "__defineGetter__"; "__defineSetter__";
          "hasOwnProperty"; "__lookupGetter__"; "__lookupSetter__";
          "isPrototypeOf"; "propertyIsEnumerable"; "toString"; "valueOf";
          "__proto__"; "toLocaleString"] with (Obj.keys Object_prototype).
  destruct (no_prototype_key features) eqn:E.
  - assert (Hno : ~ exists f, In f features /\ In f (Obj.keys Object_prototype)).
    { intros H. apply no_prototype_key_false in H. congruence. }
    repeat split; try discriminate; try tauto.
    intros _. eexists. reflexivity.
  - pose proof (proj1 (no_prototype_key_false features) E) as H.
    repeat split; try discriminate; try tauto.
    + intros [pkg Hpkg]. discriminate.
    + now intros e [= <-].
Qed.

(** ** The keys and the values of a manifest *)

Lemma NoDup_scripts_of i18n testing quality packageManager :
  NoDup (Obj.keys (scripts_of i18n testing quality packageManager)).
Proof.
  unfold scripts_of. destruct i18n, testing, quality;
    repeat apply NoDup_keys_set;
    simpl; repeat (constructor; [simpl; intuition discriminate|]); constructor.
Qed.

(** X2: no member of a composed manifest lists a key twice: the keys of
    [scripts], of [dependencies] and of [devDependencies] are pairwise
    distinct, whatever the selection (repeated or colliding package names
    overwrite in place). *)
Theorem manifest_keys_are_distinct
    name features packageManager stateLibs pkg :
  generatePackageJson name features packageManager stateLibs = Normal pkg ->
  NoDup (Obj.keys (Pkg.scripts pkg))
  /\ NoDup (Obj.keys (Pkg.dependencies pkg))
  /\ NoDup (Obj.keys (Pkg.devDependencies pkg)).
Proof.
  rewrite generatePackageJson_spec.
  destruct (no_prototype_key features); [|discriminate].
  intros [= <-]. repeat split.
  - rewrite manifest_scripts. apply NoDup_scripts_of.
  - rewrite manifest_dependencies.
    apply NoDup_keys_state_dependencies, NoDup_keys_set_all,
      NoDup_base_dependencies.
  - rewrite manifest_devDependencies.
    apply NoDup_keys_set_all, NoDup_base_devDependencies.
Qed.

Lemma manifest_keys_are_distinct_witness :
  generatePackageJson "demo" ["ui"; "ui"; "state"; "testing"] "pnpm"
    (Some ["jotai"; "jotai"])
  = Normal (manifest "demo" ["ui"; "ui"; "state"; "testing"] "pnpm"
              (Some ["jotai"; "jotai"]))
  /\ NoDup (Obj.keys (Pkg.dependencies
       (manifest "demo" ["ui"; "ui"; "state"; "testing"] "pnpm"
          (Some ["jotai"; "jotai"])))).
Proof.
  split; [reflexivity|].
  apply (manifest_keys_are_distinct "demo" ["ui"; "ui"; "state"; "testing"]
           "pnpm" (Some ["jotai"; "jotai"])).
  reflexivity.
Defined.



Lemma get_dependencies name features packageManager stateLibs k :
  Obj.get k (Pkg.dependencies (manifest name features packageManager stateLibs))
  = if Str.includes features "state"
       && (Str.includes (or_default stateLibs ["jotai"]) "zustand"
             && String.eqb k "zustand"
           || Str.includes (or_default stateLibs ["jotai"]) "jotai"
                && String.eqb k "jotai")
    then Some "latest"
    else if Str.includes (selected_packages features) k then Some "latest"
    else Obj.get k (Pkg.dependencies (base_package name)).
Proof.
  now rewrite manifest_dependencies, get_state_dependencies, get_set_all.
Qed.

Lemma get_devDependencies name features packageManager stateLibs k :
  Obj.get k (Pkg.devDependencies (manifest name features packageManager stateLibs))
  = if Str.includes (selected_devPackages features) k then Some "latest"
    else Obj.get k (Pkg.devDependencies (base_package name)).
Proof. now rewrite manifest_devDependencies, get_set_all. Qed.

(** X4: no feature touches the base toolchain. Every entry of the base
    [dependencies] and [devDependencies] is in the composed manifest with
    the version the base template gives it, and every other entry of the
    two members has the version [latest]. *)
Theorem base_toolchain_is_kept
    name features packageManager stateLibs pkg :
  generatePackageJson name features packageManager stateLibs = Normal pkg ->
  (forall k v, In (k, v) (Pkg.dependencies (base_package name)) ->
               Obj.get k (Pkg.dependencies pkg) = Some v)
  /\ (forall k v, In (k, v) (Pkg.devDependencies (base_package name)) ->
                  Obj.get k (Pkg.devDependencies pkg) = Some v)
  /\ (forall k v, Obj.get k (Pkg.dependencies pkg) = Some v ->
                  In (k, v) (Pkg.dependencies (base_package name))
                  \/ v = "latest")
  /\ (forall k v, Obj.get k (Pkg.devDependencies pkg) = Some v ->
                  In (k, v) (Pkg.devDependencies (base_package name))
                  \/ v = "latest").
Proof.
  rewrite generatePackageJson_spec.
  destruct (no_prototype_key features); [|discriminate].
  intros [= <-]. repeat split.
  - intros k v Hin. rewrite get_dependencies. simpl in Hin.
    repeat (destruct Hin as [[= <- <-]|Hin];
            [rewrite not_selected by reflexivity; simpl;
             rewrite ?andb_false_r; reflexivity|]).
    contradiction.
  - intros k v Hin. rewrite get_devDependencies. simpl in Hin.
    repeat (destruct Hin as [[= <- <-]|Hin];
            [rewrite not_selected_dev by reflexivity; reflexivity|]).
    contradiction.
  - intros k v. rewrite get_dependencies.
    destruct (_ && _); [intros [= <-]; now right|].
    destruct (Str.includes _ k); [intros [= <-]; now right|].
    intros H. left. now apply get_In.
  - intros k v. rewrite get_devDependencies.
    destruct (Str.includes _ k); [intros [= <-]; now right|].
    intros H. left. now apply get_In.
Qed.

Lemma base_toolchain_is_kept_witness :
  generatePackageJson "demo" ["ui"; "state"; "deploy"] "npm" None
  = Normal (manifest "demo" ["ui"; "state"; "deploy"] "npm" None)
  /\ (forall k v, In (k, v) (Pkg.dependencies (base_package "demo")) ->
        Obj.get k (Pkg.dependencies
                     (manifest "demo" ["ui"; "state"; "deploy"] "npm" None))
        = Some v).
Proof.
  split; [reflexivity|].
  apply (base_toolchain_is_kept "demo" ["ui"; "state"; "deploy"] "npm" None).
  reflexivity.
Defined.

(** X5: the packages of a composed manifest are exactly those the
    selection asks for. A name is a key of [dependencies] if and only if
    it is a base dependency, or a package of a selected catalog feature,
    or a chosen state library ([jotai], [zustand]) while [state] is
    selected; it is a key of [devDependencies] if and only if it is a base
    one or a dev package of a selected catalog feature. *)
Theorem manifest_packages_are_exact
    name features packageManager stateLibs pkg k :
  generatePackageJson name features packageManager stateLibs = Normal pkg ->
  (In k (Obj.keys (Pkg.dependencies pkg))
   <-> In k (Obj.keys (Pkg.dependencies (base_package name)))
       \/ (exists f config,
             In f features /\ Obj.get f FEATURES = Some config
             /\ In k (Feature.packages config))
       \/ (In "state" features
           /\ In k (or_default stateLibs ["jotai"])
           /\ (k = "jotai" \/ k = "zustand")))
  /\ (In k (Obj.keys (Pkg.devDependencies pkg))
      <-> In k (Obj.keys (Pkg.devDependencies (base_package name)))
          \/ (exists f config,
                In f features /\ Obj.get f FEATURES = Some config
                /\ In k (Feature.devPackages config))).
Proof.
  rewrite generatePackageJson_spec.
  destruct (no_prototype_key features); [|discriminate].
  intros [= <-].
  assert (Hkeys : forall (o : Obj.t string),
            In k (Obj.keys o) <-> Obj.has k o = true).
  { intros o. unfold Obj.has. destruct (Obj.get k o) eqn:E.
    - split; [reflexivity|]. intros _.
      destruct (in_dec string_dec k (Obj.keys o)) as [H|H]; [assumption|].
      apply get_None_keys in H. congruence.
    - split; [|discriminate]. intros H. apply get_None_keys in E. contradiction. }
  assert (Hown : forall f config,
            FEATURES_get f = Own config <-> Obj.get f FEATURES = Some config).
  { intros f config. unfold FEATURES_get.
    destruct (Obj.get f FEATURES).
    - split; now intros [= ->].
    - destruct (Obj.get f Object_prototype); split; discriminate. }
  split.
  - rewrite !Hkeys, manifest_dependencies, has_state_dependencies, has_set_all.
    repeat first [rewrite orb_true_iff | rewrite andb_true_iff].
    rewrite !includes_In, !String.eqb_eq, In_selected_packages.
    split.
    + intros [[Hs [[Hj ->]|[Hz ->]]]|[[f [config [Hf [Hg Hk]]]]|Hb]].
      * right. right. tauto.
      * right. right. tauto.
      * right. left. exists f, config. now rewrite <- Hown.
      * now left.
    + intros [Hb|[[f [config [Hf [Hg Hk]]]]|[Hs [Hl [->| ->]]]]].
      * right. now right.
      * right. left. exists f, config. now rewrite Hown.
      * left. tauto.
      * left. tauto.
  - rewrite !Hkeys, manifest_devDependencies, has_set_all.
    rewrite !orb_true_iff, !includes_In, In_selected_devPackages.
    split.
    + intros [[f [config [Hf [Hg Hk]]]]|Hb].
      * right. exists f, config. now rewrite <- Hown.
      * now left.
    + intros [Hb|[f [config [Hf [Hg Hk]]]]].
      * now right.
      * left. exists f, config. now rewrite Hown.
Qed.

Lemma manifest_packages_are_exact_witness :
  generatePackageJson "demo" ["testing"] "npm" None
  = Normal (manifest "demo" ["testing"] "npm" None)
  /\ (In "jsdom" (Obj.keys (Pkg.devDependencies
                              (manifest "demo" ["testing"] "npm" None)))
      <-> In "jsdom" (Obj.keys (Pkg.devDependencies (base_package "demo")))
          \/ (exists f config,
                In f ["testing"] /\ Obj.get f FEATURES = Some config
                /\ In "jsdom" (Feature.devPackages config))).
Proof.
  split; [reflexivity|].
  apply (manifest_packages_are_exact "demo" ["testing"] "npm" None
           (manifest "demo" ["testing"] "npm" None) "jsdom").
  reflexivity.
Defined.

(** ** A key listed twice *)

Lemma set_present {V : Type} (k : string) (v : V) (o : Obj.t V) :
  Obj.get k o = Some v -> Obj.set k v o = o.
Proof.
  induction o as [|[k' v'] o IH]; simpl; [discriminate|].
  destruct (String.eqb_spec k k') as [->|Hne].
  - now intros [= ->].
  - intros H. now rewrite IH.
Qed.

Lemma set_all_present {V : Type} (ks : list string) (v : V) (o : Obj.t V) :
  (forall k, In k ks -> Obj.get k o = Some v) -> Obj.set_all ks v o = o.
Proof.
  induction ks as [|k ks IH]; intros H; [reflexivity|].
  rewrite set_all_cons, set_present by (apply H; now left).
  apply IH. intros k' Hk'. apply H. now right.
Qed.

Lemma set_all_repeated {V : Type} (ks ks' ks'' : list string) (v : V)
    (o : Obj.t V) :
  incl ks' ks ->
  Obj.set_all (ks ++ ks' ++ ks'') v o = Obj.set_all (ks ++ ks'') v o.
Proof.
  intros Hincl. rewrite !set_all_app. f_equal.
  apply set_all_present. intros k Hk. rewrite get_set_all.
  apply Hincl, includes_In in Hk. now rewrite Hk.
Qed.

Lemma manifest_congruence_merged
    name features features' packageManager stateLibs :
  Str.includes features "state" = Str.includes features' "state" ->
  Str.includes features "i18n" = Str.includes features' "i18n" ->
  Str.includes features "testing" = Str.includes features' "testing" ->
  Str.includes features "quality" = Str.includes features' "quality" ->
  merged features (base_package name) = merged features' (base_package name) ->
  manifest name features packageManager stateLibs
  = manifest name features' packageManager stateLibs.
Proof.
  intros Hs Hi Ht Hq Hm.
  unfold manifest, add_quality, add_testing_scripts, add_i18n_scripts,
    add_state_libs.
  now rewrite Hs, Hi, Ht, Hq, Hm.
Qed.

(** X6: listing a key again changes nothing. When [key] already stands
    somewhere in [before], composing with another occurrence of it
    inserted later gives the same result as composing without it: the
    same manifest, entry for entry and in the same order, or the same
    error. *)
Theorem repeated_feature_key_changes_nothing
    name before key after packageManager stateLibs :
  In key before ->
  generatePackageJson name (before ++ key :: after) packageManager stateLibs
  = generatePackageJson name (before ++ after) packageManager stateLibs.
Proof.
  intros Hin. rewrite !generatePackageJson_spec, no_prototype_key_insert.
  destruct (no_prototype_key (before ++ after)) eqn:Hnp; [|reflexivity].
  assert (Hkey : match FEATURES_get key with
                 | Inherited _ => false
                 | _ => true
                 end = true).
  { unfold no_prototype_key in Hnp. rewrite forallb_forall in Hnp.
    apply Hnp, in_or_app. now left. }
  rewrite Hkey. cbn [andb]. f_equal.
  assert (Hinc : forall x, Str.includes (before ++ key :: after) x
                           = Str.includes (before ++ after) x).
  { intros x. rewrite includes_insert.
    destruct (String.eqb_spec x key) as [->|_]; [|apply orb_false_r].
    rewrite orb_true_r. symmetry. apply includes_In, in_or_app. now left. }
  apply manifest_congruence_merged; try apply Hinc.
  unfold merged, Pkg.with_devDependencies, Pkg.with_dependencies.
  cbn [Pkg.name Pkg.private Pkg.sideEffects Pkg.type Pkg.scripts
       Pkg.dependencies Pkg.devDependencies Pkg.lint_staged Pkg.pnpm].
  rewrite selected_packages_insert, selected_devPackages_insert,
    selected_packages_app, selected_devPackages_app.
  rewrite !set_all_repeated; [reflexivity| |].
  - intros x Hx. apply In_selected_devPackages.
    apply In_selected_devPackages in Hx.
    destruct Hx as [f [config [[<-|[]] H]]]. exists key, config.
    split; [exact Hin | exact H].
  - intros x Hx. apply In_selected_packages.
    apply In_selected_packages in Hx.
    destruct Hx as [f [config [[<-|[]] H]]]. exists key, config.
    split; [exact Hin | exact H].
Qed.

Lemma repeated_feature_key_changes_nothing_witness :
  In "ui" ["auth"; "ui"]
  /\ generatePackageJson "demo" (["auth"; "ui"] ++ "ui" :: ["testing"]) "yarn" None
     = generatePackageJson "demo" (["auth"; "ui"] ++ ["testing"]) "yarn" None.
Proof.
  split; [simpl; tauto|].
  apply (repeated_feature_key_changes_nothing "demo" ["auth"; "ui"] "ui"
           ["testing"] "yarn" None).
  simpl. tauto.
Defined.

(** * Further properties of the emitters and of the driver *)

(** ** The README *)

Lemma feature_lines_spec features :
  feature_lines features
  = if forallb has_entry features then Normal (map feature_line features)
    else Throw (TypeError "name").
Proof.
  induction features as [|f rest IH]; [reflexivity|].
  cbn [feature_lines forallb map]. rewrite IH.
  destruct (forallb has_entry rest); unfold has_entry, feature_line;
    destruct (FEATURES_get f) as [config|[its_name|]|]; reflexivity.
Qed.


(** ** The exit status of a run *)




(** ** The calls of a run, relative to the project directory *)

Lemma init_log_relative cwd existsSync a :
  existsSync (root_of cwd a) = false ->
  no_prototype_key (features_of a) = true ->
  (Str.includes (features_of a) "i18n" = true ->
   forallb Str.no_slash (languages_of a) = true) ->
  log_of (init cwd existsSync (Answered a))
  = map (under (root_of cwd a)) (generation_log a).
Proof.
  intros Hex Hnp Hplain. rewrite init_log by assumption.
  unfold generation_log. rewrite !map_app. do 2 f_equal.
  destruct (Str.includes (features_of a) "i18n"); [|reflexivity].
  now apply createI18nSetup_log, Hplain.
Qed.

(** The three ways a session ends before, or at, the first write. *)
Lemma init_short_logs cwd existsSync a :
  existsSync (root_of cwd a) = true
  \/ no_prototype_key (features_of a) = false ->
  log_of (init cwd existsSync (Answered a)) = []
  \/ log_of (init cwd existsSync (Answered a)) = [MkDir (root_of cwd a)].
Proof.
  destruct (existsSync (root_of cwd a)) eqn:Hex.
  - intros _. left. now rewrite init_target_exists.
  - intros [H|H]; [discriminate|]. right.
    now rewrite init_composition_throws.
Qed.

(** X9: a run never leaves the project directory. With locale codes free
    of path separators, every call into the file system that an answered
    session makes acts on the directory [cwd/projectName] or on a path
    below it. *)
Theorem calls_stay_in_project_directory cwd existsSync a :
  (Str.includes (features_of a) "i18n" = true ->
   forallb Str.no_slash (languages_of a) = true) ->
  Forall (fun call => exists rel, path_of call = root_of cwd a ++ rel)
         (log_of (init cwd existsSync (Answered a))).
Proof.
  intros Hplain.
  destruct (existsSync (root_of cwd a)) eqn:Hex;
    [|destruct (no_prototype_key (features_of a)) eqn:Hnp].
  - rewrite init_target_exists by assumption. constructor.
  - rewrite init_log_relative by assumption.
    apply Forall_forall. intros call Hin. apply in_map_iff in Hin.
    destruct Hin as [[dir|file data] [<- _]]; simpl; eauto.
  - rewrite init_composition_throws by assumption.
    constructor; [|constructor]. exists []. simpl. now rewrite app_nil_r.
Qed.

Lemma calls_stay_in_project_directory_witness :
  let a := answers "npm" ["i18n"; "testing"] (Some ["en"; "ko"]) None true in
  (Str.includes (features_of a) "i18n" = true ->
   forallb Str.no_slash (languages_of a) = true)
  /\ Forall (fun call => exists rel, path_of call = root_of ["home"] a ++ rel)
       (log_of (init ["home"] fresh (Answered a))).
Proof.
  cbv zeta. split; [reflexivity|].
  apply (calls_stay_in_project_directory ["home"] fresh
           (answers "npm" ["i18n"; "testing"] (Some ["en"; "ko"]) None true)).
  reflexivity.
Defined.

(** ** The files of a run *)

Lemma written_files_generation_log a :
  written_files (generation_log a) = expected_files a.
Proof.
  unfold generation_log, expected_files, log_before_i18n, log_after_i18n,
    log_after_config.
  rewrite feature_lines_spec, !written_files_app.
  change (written_files
            ([MkDir [];
              WriteFile ["package.json"]
                (Json.stringify
                   (Pkg.to_json
                      (manifest (Answers.projectName a) (features_of a)
                         (Answers.packageManager a) (Some (stateLibs_of a)))))]
             ++ log_of (createBaseStructure [])))
    with base_files.
  f_equal. f_equal.
  { destruct (Str.includes (features_of a) "i18n"); [|reflexivity].
    unfold i18n_log, i18n_files. rewrite written_files_app. cbn [written_files app].
    f_equal. induction (languages_of a) as [|lang langs IH]; [reflexivity|].
    cbn [map written_files]. now rewrite IH. }
  f_equal.
  { now destruct (Str.includes (features_of a) "ui"). }
  f_equal.
  { destruct (Str.includes (features_of a) "state"); [|reflexivity].
    unfold createStateSetup. cbn [or_default].
    destruct (Str.includes (stateLibs_of a) "jotai"),
      (Str.includes (stateLibs_of a) "zustand"); reflexivity. }
  f_equal.
  { now destruct (Str.includes (features_of a) "auth"). }
  f_equal.
  { now destruct (Str.includes (features_of a) "testing"). }
  f_equal.
  { now destruct (Str.includes (features_of a) "quality"). }
  unfold createConfigFiles, createReadme. rewrite ?feature_lines_spec.
  destruct (Str.includes (features_of a) "ui"),
    (Str.includes (features_of a) "deploy"),
    (forallb has_entry (features_of a)), (Answers.initGit a); reflexivity.
Qed.



Lemma message_file_head lang : hd "" (message_file lang) = "messages".
Proof. reflexivity. Qed.

Lemma In_i18n_files file languages :
  In file (i18n_files languages) ->
  hd "" file = "project.inlang" \/ hd "" file = "messages".
Proof.
  intros [<-|H]; [now left|]. right.
  apply in_map_iff in H. now destruct H as [lang [<- _]].
Qed.



Lemma written_files_of_run cwd existsSync a :
  existsSync (root_of cwd a) = false ->
  no_prototype_key (features_of a) = true ->
  (Str.includes (features_of a) "i18n" = true ->
   forallb Str.no_slash (languages_of a) = true) ->
  written_files (log_of (init cwd existsSync (Answered a)))
  = map (app (root_of cwd a)) (expected_files a).
Proof.
  intros Hex Hnp Hplain.
  now rewrite init_log_relative, written_files_under,
    written_files_generation_log by assumption.
Qed.




(** ** No file is written twice *)

Lemma count_optional (b : bool) (files : list Path.t) (x : Path.t) :
  count_occ path_dec (if b then files else []) x <= count_occ path_dec files x.
Proof. destruct b; cbn [count_occ]; lia. Qed.

Lemma NoDup_i18n_files languages :
  NoDup languages -> NoDup (i18n_files languages).
Proof.
  intros Hnd. unfold i18n_files. constructor.
  - intros H. apply in_map_iff in H. now destruct H as [lang [E _]].
  - induction Hnd as [|lang langs Hnotin _ IH]; simpl; constructor; [|exact IH].
    intros H. apply in_map_iff in H. destruct H as [l [E Hl]].
    unfold message_file in E. injection E as E. apply append_inj_l in E.
    now subst.
Qed.

(** The files outside the locale files, each segment in full. *)
Lemma NoDup_all_files :
  NoDup (base_files
         ++ [["components.json"]; ["src"; "lib"; "utils.ts"]]
         ++ ([jotai_store] ++ [zustand_store])
         ++ [["src"; "services"; "auth.ts"]]
         ++ [["vitest.config.ts"]; ["tests"; "setup.ts"]]
         ++ [["biome.json"]; [".editorconfig"]]
         ++ [["tsconfig.json"]; ["vite.config.ts"]]
         ++ [["tailwind.config.mjs"]]
         ++ [[".env.example"]]
         ++ [["README.md"]; [".gitignore"]]).
Proof.
  apply (NoDup_count_occ' path_dec). intros x Hx. simpl in Hx.
  repeat (destruct Hx as [<-|Hx]; [vm_compute; reflexivity|]). contradiction.
Qed.

Lemma NoDup_expected_files a :
  (Str.includes (features_of a) "i18n" = true -> NoDup (languages_of a)) ->
  NoDup (expected_files a).
Proof.
  intros Hnd. apply (NoDup_count_occ path_dec). intros x.
  pose proof (proj1 (NoDup_count_occ path_dec _) NoDup_all_files x) as Hall.
  unfold expected_files. cbv zeta.
  rewrite !count_occ_app in *.
  set (selected := Str.includes (features_of a)) in *.
  pose proof (count_optional (selected "ui")
                [["components.json"]; ["src"; "lib"; "utils.ts"]] x).
  pose proof (count_optional (Str.includes (stateLibs_of a) "jotai")
                [jotai_store] x).
  pose proof (count_optional (Str.includes (stateLibs_of a) "zustand")
                [zustand_store] x).
  pose proof (count_optional (selected "auth")
                [["src"; "services"; "auth.ts"]] x).
  pose proof (count_optional (selected "testing")
                [["vitest.config.ts"]; ["tests"; "setup.ts"]] x).
  pose proof (count_optional (selected "quality")
                [["biome.json"]; [".editorconfig"]] x).
  pose proof (count_optional (selected "ui") [["tailwind.config.mjs"]] x).
  assert (Hstate :
    count_occ path_dec
      (if selected "state"
       then (if Str.includes (stateLibs_of a) "jotai" then [jotai_store] else [])
            ++ (if Str.includes (stateLibs_of a) "zustand"
                then [zustand_store] else [])
       else []) x
    <= count_occ path_dec [jotai_store] x
       + count_occ path_dec [zustand_store] x).
  { destruct (selected "state"); [rewrite count_occ_app|cbn [count_occ]]; lia. }
  assert (Htail :
    count_occ path_dec
      (if selected "deploy" then []
       else if forallb has_entry (features_of a)
            then ["README.md"]
                 :: (if Answers.initGit a then [[".gitignore"]] else [])
            else []) x
    <= count_occ path_dec [["README.md"]; [".gitignore"]] x).
  { destruct (selected "deploy"), (forallb has_entry (features_of a)),
      (Answers.initGit a); cbn [count_occ];
      repeat destruct (path_dec _ x); lia. }
  destruct (selected "i18n") eqn:Hi18n.
  - destruct (in_dec path_dec x (i18n_files (languages_of a))) as [Hin|Hout].
    + pose proof (proj1 (NoDup_count_occ path_dec _)
                    (NoDup_i18n_files _ (Hnd eq_refl)) x) as Hlocale.
      assert (Hnone : forall files,
                forallb (fun f => negb (String.eqb (hd "" f) "project.inlang")
                                  && negb (String.eqb (hd "" f) "messages"))
                        files = true ->
                count_occ path_dec files x = 0).
      { intros files Hfiles. apply count_occ_not_In. intros Hx.
        rewrite forallb_forall in Hfiles. specialize (Hfiles x Hx).
        apply In_i18n_files in Hin. destruct Hin as [E|E]; rewrite E in Hfiles;
          discriminate. }
      pose proof (Hnone base_files eq_refl).
      pose proof (Hnone [["tsconfig.json"]; ["vite.config.ts"]] eq_refl).
      pose proof (Hnone [[".env.example"]] eq_refl).
      pose proof (Hnone [["components.json"]; ["src"; "lib"; "utils.ts"]]
                    eq_refl).
      pose proof (Hnone [jotai_store] eq_refl).
      pose proof (Hnone [zustand_store] eq_refl).
      pose proof (Hnone [["src"; "services"; "auth.ts"]] eq_refl).
      pose proof (Hnone [["vitest.config.ts"]; ["tests"; "setup.ts"]] eq_refl).
      pose proof (Hnone [["biome.json"]; [".editorconfig"]] eq_refl).
      pose proof (Hnone [["tailwind.config.mjs"]] eq_refl).
      pose proof (Hnone [["README.md"]; [".gitignore"]] eq_refl).
      unfold Path.t in *. lia.
    + apply (count_occ_not_In path_dec) in Hout. unfold Path.t in *.
      subst selected. lia.
  - pose proof (eq_refl : count_occ path_dec (@nil Path.t) x = 0).
    unfold Path.t in *. subst selected. lia.
Qed.

(** X11: no file is written twice. In a run that reaches generation with
    locale codes that are free of path separators and pairwise distinct,
    the targets of the [writeFileSync] calls are pairwise distinct paths:
    no feature overwrites the file of another or of the base scaffold. *)
Theorem no_file_is_written_twice cwd existsSync a :
  (Str.includes (features_of a) "i18n" = true ->
   forallb Str.no_slash (languages_of a) = true /\ NoDup (languages_of a)) ->
  NoDup (written_files (log_of (init cwd existsSync (Answered a)))).
Proof.
  intros Hlocales.
  destruct (existsSync (root_of cwd a)) eqn:Hex;
    [|destruct (no_prototype_key (features_of a)) eqn:Hnp].
  - rewrite init_target_exists by assumption. constructor.
  - rewrite written_files_of_run; try assumption;
      [|intros H; now apply Hlocales].
    apply NoDup_map_NoDup_ForallPairs.
    + intros p q _ _ E. now apply app_inv_head in E.
    + apply NoDup_expected_files. intros H. now apply Hlocales.
  - rewrite init_composition_throws by assumption. constructor.
Qed.

Lemma no_file_is_written_twice_witness :
  let a := answers "pnpm" ["i18n"; "ui"; "state"; "quality"]
             (Some ["en"; "vi"; "zh"]) (Some ["jotai"; "zustand"]) true in
  (Str.includes (features_of a) "i18n" = true ->
   forallb Str.no_slash (languages_of a) = true /\ NoDup (languages_of a))
  /\ NoDup (written_files (log_of (init ["home"] fresh (Answered a)))).
Proof.
  cbv zeta.
  assert (H : NoDup ["en"; "vi"; "zh"]).
  { repeat (constructor; [simpl; intuition discriminate|]). constructor. }
  split; [intros _; split; [reflexivity | exact H]|].
  apply (no_file_is_written_twice ["home"] fresh
           (answers "pnpm" ["i18n"; "ui"; "state"; "quality"]
              (Some ["en"; "vi"; "zh"]) (Some ["jotai"; "zustand"]) true)).
  intros _. split; [reflexivity | exact H].
Defined.

(** ** Directories come before their files *)

Lemma existsb_incl {A : Type} (f : A -> bool) (l l' : list A) :
  incl l l' -> existsb f l = true -> existsb f l' = true.
Proof.
  intros Hincl H. apply existsb_exists in H. destruct H as [x [Hx Hf]].
  apply existsb_exists. exists x. split; [now apply Hincl | assumption].
Qed.

Lemma parents_created_incl created created' log :
  incl created created' ->
  parents_created created log = true -> parents_created created' log = true.
Proof.
  revert created created'.
  induction log as [|[dir|file data] log IH]; intros c c' Hincl H;
    cbn [parents_created] in *.
  - reflexivity.
  - apply (IH (dir :: c)); [|assumption].
    intros x [<-|Hx]; [now left | right; now apply Hincl].
  - apply andb_prop in H. destruct H as [Hfile Hrest].
    apply andb_true_intro. split; [|now apply (IH c)].
    destruct file; [discriminate|]. now apply (existsb_incl _ c).
Qed.

Lemma parents_created_app created log log' :
  parents_created created log = true ->
  (forall created', incl created created' ->
                    parents_created created' log' = true) ->
  parents_created created (log ++ log') = true.
Proof.
  revert created.
  induction log as [|[dir|file data] log IH]; intros c H Hlog';
    cbn [parents_created app] in *.
  - apply Hlog', incl_refl.
  - apply IH; [assumption|]. intros c' Hincl. apply Hlog'.
    intros x Hx. apply Hincl. now right.
  - apply andb_prop in H. destruct H as [Hfile Hrest].
    rewrite Hfile. cbn [andb]. now apply IH.
Qed.

(** Segments that only need the project directory to exist. *)
Lemma parents_created_segments log log' :
  parents_created [[]] log = true ->
  parents_created [[]] log' = true ->
  parents_created [[]] (log ++ log') = true.
Proof.
  intros H H'. apply parents_created_app; [assumption|].
  intros c Hincl. now apply (parents_created_incl [[]]).
Qed.

Lemma parents_created_optional (b : bool) log :
  parents_created [[]] log = true ->
  parents_created [[]] (if b then log else []) = true.
Proof. now destruct b. Qed.

Lemma parents_created_message_files created languages :
  existsb (path_eqb ["messages"]) created = true ->
  parents_created created
    (map (fun lang =>
            WriteFile (message_file lang) (Json.stringify (messages lang)))
         languages) = true.
Proof.
  intros Hc. induction languages as [|lang langs IH]; [reflexivity|].
  cbn [map parents_created message_file removelast].
  now rewrite Hc, IH.
Qed.

Lemma parents_created_i18n_log languages baseLocale :
  parents_created [[]] (i18n_log languages baseLocale) = true.
Proof.
  unfold i18n_log. cbn [app parents_created].
  rewrite parents_created_message_files by reflexivity. reflexivity.
Qed.

Lemma parents_created_generation_log a :
  parents_created [] (generation_log a) = true.
Proof.
  unfold generation_log, log_before_i18n.
  cbn [app parents_created].
  change (parents_created [[]]
            ((WriteFile ["package.json"]
                (Json.stringify
                   (Pkg.to_json
                      (manifest (Answers.projectName a) (features_of a)
                         (Answers.packageManager a) (Some (stateLibs_of a)))))
              :: log_of (createBaseStructure []))
             ++ (if Str.includes (features_of a) "i18n"
                 then i18n_log (languages_of a) (baseLocale_of a) else [])
             ++ log_after_i18n a) = true).
  apply parents_created_segments; [reflexivity|].
  apply parents_created_segments;
    [apply parents_created_optional, parents_created_i18n_log|].
  unfold log_after_i18n.
  apply parents_created_segments;
    [apply parents_created_optional; reflexivity|].
  apply parents_created_segments.
  { apply parents_created_optional. unfold createStateSetup.
    cbn [or_default].
    destruct (Str.includes (stateLibs_of a) "jotai"),
      (Str.includes (stateLibs_of a) "zustand"); reflexivity. }
  do 3 (apply parents_created_segments;
        [apply parents_created_optional; reflexivity|]).
  apply parents_created_segments.
  { unfold createConfigFiles.
    destruct (Str.includes (features_of a) "ui"),
      (Str.includes (features_of a) "deploy"); reflexivity. }
  unfold log_after_config, createReadme. rewrite !feature_lines_spec.
  destruct (Str.includes (features_of a) "deploy"),
    (forallb has_entry (features_of a)), (Answers.initGit a);
    reflexivity.
Qed.

Lemma existsb_path_under root p created :
  existsb (path_eqb (root ++ p)) (map (app root) created)
  = existsb (path_eqb p) created.
Proof.
  induction created as [|q created IH]; [reflexivity|].
  cbn [map existsb]. now rewrite path_eqb_app, IH.
Qed.

Lemma parents_created_under root created log :
  parents_created created log = true ->
  parents_created (map (app root) created) (map (under root) log) = true.
Proof.
  revert created. induction log as [|[dir|file data] log IH]; intros c H;
    cbn [map under parents_created] in *.
  - reflexivity.
  - now apply (IH (dir :: c)).
  - apply andb_prop in H. destruct H as [Hfile Hrest].
    rewrite (IH c Hrest), andb_true_r.
    destruct file as [|x file]; [discriminate|].
    rewrite removelast_app by discriminate.
    rewrite existsb_path_under.
    destruct root; exact Hfile.
Qed.

Lemma parents_created_sound created log before file data after :
  parents_created created log = true ->
  log = before ++ WriteFile file data :: after ->
  In (removelast file) created \/ In (MkDir (removelast file)) before.
Proof.
  revert created log.
  induction before as [|call before IH]; intros c log H ->;
    cbn [app parents_created] in H.
  - apply andb_prop in H. destruct H as [Hfile _].
    destruct file; [discriminate|].
    apply existsb_exists in Hfile. destruct Hfile as [p [Hp E]].
    apply path_eqb_eq in E. left. now rewrite E.
  - destruct call as [dir|f d].
    + destruct (IH _ _ H eq_refl) as [[<-|Hc]|Hb].
      * right. now left.
      * now left.
      * right. now right.
    + apply andb_prop in H. destruct H as [_ H].
      destruct (IH _ _ H eq_refl) as [Hc|Hb]; [now left | right; now right].
Qed.

(** X12: a file is never written into a directory that the run has not
    created. With locale codes free of path separators, every
    [writeFileSync] of an answered session comes after an [mkdirSync] of
    the same session on the directory that holds the file. *)
Theorem directories_come_before_their_files
    cwd existsSync a before file data after :
  (Str.includes (features_of a) "i18n" = true ->
   forallb Str.no_slash (languages_of a) = true) ->
  log_of (init cwd existsSync (Answered a))
  = before ++ WriteFile file data :: after ->
  In (MkDir (removelast file)) before.
Proof.
  intros Hplain Hlog.
  destruct (existsSync (root_of cwd a)) eqn:Hex;
    [|destruct (no_prototype_key (features_of a)) eqn:Hnp].
  - rewrite init_target_exists in Hlog by assumption.
    now destruct before.
  - rewrite init_log_relative in Hlog by assumption.
    pose proof (parents_created_under (root_of cwd a) [] _
                  (parents_created_generation_log a)) as H.
    destruct (parents_created_sound _ _ _ _ _ _ H Hlog) as [[]|Hin].
    exact Hin.
  - rewrite init_composition_throws in Hlog by assumption.
    destruct before as [|call [|call' before]]; discriminate.
Qed.

Lemma directories_come_before_their_files_witness :
  let a := answers "npm" ["testing"] None None false in
  (Str.includes (features_of a) "i18n" = true ->
   forallb Str.no_slash (languages_of a) = true)
  /\ In (MkDir ["home"; "demo"; "tests"])
        (firstn 16 (log_of (init ["home"] fresh (Answered a)))).
Proof.
  cbv zeta. split; [discriminate|].
  apply (directories_come_before_their_files ["home"] fresh
           (answers "npm" ["testing"] None None false)
           (firstn 16 (log_of (init ["home"] fresh
              (Answered (answers "npm" ["testing"] None None false)))))
           ["home"; "demo"; "tests"; "setup.ts"] tests_setup_ts
           (skipn 17 (log_of (init ["home"] fresh
              (Answered (answers "npm" ["testing"] None None false)))))).
  - discriminate.
  - vm_compute. reflexivity.
Defined.

(** * Properties of the questions *)

Lemma name_char_not_slash c : name_char c = true -> Ascii.eqb c "/" = false.
Proof.
  intros H. destruct (Ascii.eqb_spec c "/") as [->|]; [discriminate | reflexivity].
Qed.

Lemma all_name_chars_no_slash name :
  all_name_chars name = true -> Str.no_slash name = true.
Proof.
  induction name as [|c name IH]; [reflexivity|]. simpl.
  intros H. apply andb_prop in H. destruct H as [Hc Hrest].
  now rewrite (name_char_not_slash c Hc), IH.
Qed.

Lemma name_char_escape c :
  name_char c = true -> Json.escape_char c = String c EmptyString.
Proof.
  destruct c as [[] [] [] [] [] [] [] []]; intros H;
    solve [discriminate H | reflexivity].
Qed.

Lemma all_name_chars_escape name :
  all_name_chars name = true -> Json.escape name = name.
Proof.
  induction name as [|c name IH]; [reflexivity|]. simpl.
  intros H. apply andb_prop in H. destruct H as [Hc Hrest].
  now rewrite (name_char_escape c Hc), IH.
Qed.

Lemma validate_projectName_Valid name :
  validate_projectName name = Valid
  <-> name <> "" /\ all_name_chars name = true.
Proof.
  unfold validate_projectName, name_pattern_test.
  destruct (String.eqb_spec name "") as [->|Hne].
  - split; [discriminate | intros [H _]; contradiction].
  - cbn [negb andb]. destruct (all_name_chars name).
    + split; [now split | reflexivity].
    + split; [discriminate | intros [_ H]; discriminate].
Qed.

(** X13: a project name that the [validate] callback accepts is a safe
    directory name. It is not empty, it holds no path separator, it is
    neither [.] nor [..], so the project directory [path.join(cwd, name)]
    is the direct child [name] of the working directory; and it holds no
    character that JSON escapes, so the manifest carries it verbatim. The
    callback rejects the empty name and every name with a separator, a
    dot or a space. *)
Theorem accepted_project_name_is_a_safe_directory_name cwd name :
  validate_projectName name = Valid ->
  name <> ""
  /\ Str.no_slash name = true
  /\ name <> "." /\ name <> ".."
  /\ Path.join cwd name = cwd ++ [name]
  /\ Json.quote name = Str.dq +:+ name +:+ Str.dq.
Proof.
  intros Hvalid. apply validate_projectName_Valid in Hvalid.
  destruct Hvalid as [Hne Hchars].
  pose proof (all_name_chars_no_slash name Hchars) as Hslash.
  assert (Hdot : name <> ".") by (intros ->; discriminate).
  assert (Hdots : name <> "..") by (intros ->; discriminate).
  repeat split; try assumption.
  - rewrite join_simple; rewrite split_slash_no_slash by assumption;
      [reflexivity|].
    cbn [forallb]. unfold plain.
    apply String.eqb_neq in Hne, Hdot, Hdots. now rewrite Hne, Hdot, Hdots.
  - unfold Json.quote. now rewrite all_name_chars_escape.
Qed.

Lemma accepted_project_name_is_a_safe_directory_name_witness :
  validate_projectName "my-tanstack-app" = Valid
  /\ Path.join ["home"; "user"] "my-tanstack-app"
     = ["home"; "user"] ++ ["my-tanstack-app"].
Proof.
  split; [reflexivity|].
  apply (accepted_project_name_is_a_safe_directory_name ["home"; "user"]
           "my-tanstack-app").
  reflexivity.
Defined.

Lemma all_name_chars_In name c :
  all_name_chars name = true ->
  In c (list_ascii_of_string name) -> name_char c = true.
Proof.
  induction name as [|c' name IH]; simpl; [contradiction|].
  intros H. apply andb_prop in H. destruct H as [Hc Hrest].
  intros [<-|Hin]; [assumption | now apply IH].
Qed.

(** X14: what the [validate] callback of the project name turns down. The
    empty name gets the message that a name is required; a name that is
    not empty and holds a character other than an ASCII letter, a digit,
    a dash or an underscore (a separator, a dot, a space, a byte of a
    non-ASCII character) gets the message about the allowed characters;
    every other name is accepted. *)
Theorem validate_projectName_rejects name :
  (name = "" ->
   validate_projectName name = Invalid "Project name is required")
  /\ (name <> "" ->
      (exists c, In c (list_ascii_of_string name) /\ name_char c = false) ->
      validate_projectName name
      = Invalid "Project name can only contain letters, numbers, dashes and underscores")
  /\ (name <> "" ->
      (forall c, In c (list_ascii_of_string name) -> name_char c = true) ->
      validate_projectName name = Valid)
  /\ (forall c, name_char c = true <->
        let n := nat_of_ascii c in
        (65 <= n <= 90) \/ (97 <= n <= 122) \/ (48 <= n <= 57)
        \/ c = "-"%char \/ c = "_"%char).
Proof.
  repeat split.
  - now intros ->.
  - intros Hne [c [Hin Hc]]. unfold validate_projectName, name_pattern_test.
    apply String.eqb_neq in Hne. rewrite Hne. cbn [negb andb].
    destruct (all_name_chars name) eqn:E; [|reflexivity].
    rewrite (all_name_chars_In name c E Hin) in Hc. discriminate.
  - intros Hne Hall. apply validate_projectName_Valid. split; [assumption|].
    induction name as [|c name IH]; [reflexivity|]. simpl.
    rewrite (Hall c) by now left.
    destruct name as [|c' name]; [reflexivity|].
    apply IH; [discriminate|]. intros x Hx. apply Hall. now right.
  - destruct c as [[] [] [] [] [] [] [] []]; intros H;
      first [discriminate H | cbv; lia | (cbv; tauto)].
  - destruct c as [[] [] [] [] [] [] [] []]; cbv zeta; intros H;
      first [reflexivity
            | exfalso; cbn in H;
              destruct H as [H|[H|[H|[H|H]]]];
              first [lia | discriminate H] ].
Qed.




(** * Adding a feature *)




(** ** The git question *)







(** ** The locale scenario *)






